(** * Rover: the TLS decorator of the HTTP client transport

    A shallow embedding of [TlsDecorator.cpp]: the per-connection object
    [TlsConnectionDecorator] (buffers, flags, the two hooks handed to
    [tls_connect_cbs], the worker thread's loop) and the transport decorator
    [TlsDecorator::Connect].

    The TLS engine (libtls) and the decorated connection are external.  An
    engine call is described by what the worker can observe of it: the
    hooks the engine invoked while it ran, the value it returned and the
    plaintext it stored.  Whatever the object does to the outside world is
    recorded in a log of [Action]s. *)

From Stdlib Require Import String ZArith List Bool Lia.
From Stdlib.Strings Require Import Byte.
Import ListNotations.
Local Open Scope Z_scope.

(** ** Constants of [tls.h]

    The header of libtls is not among the repository's sources, so its
    constants are parameters.  The only facts used about them are the ones
    the code relies on: both sentinels are negative and they differ. *)
Class LibTls : Type := {
  TLS_WANT_POLLIN : Z;
  TLS_WANT_POLLOUT : Z;
  TLS_PROTOCOLS_DEFAULT : Z;
  want_pollin_negative : TLS_WANT_POLLIN < 0;
  want_pollout_negative : TLS_WANT_POLLOUT < 0;
  want_sentinels_differ : TLS_WANT_POLLIN <> TLS_WANT_POLLOUT
}.

(** The values libtls ships, used for concrete runs. *)
Definition libtls_header : LibTls :=
  {| TLS_WANT_POLLIN := -2;
     TLS_WANT_POLLOUT := -3;
     TLS_PROTOCOLS_DEFAULT := 8;
     want_pollin_negative := eq_refl;
     want_pollout_negative := eq_refl;
     want_sentinels_differ := ltac:(discriminate) |}.

(** ** Data model *)

Definition bytes := list byte.

(** [std::vector::size], as a [size_t] read into [Z]. *)
Definition size (v : bytes) : Z := Z.of_nat (length v).

(** [std::vector::resize]: truncate, or pad with zero bytes. *)
Definition resize (n : Z) (v : bytes) : bytes :=
  firstn (Z.to_nat n) v ++ repeat x00 (Z.to_nat n - length v)%nat.

(** [erase(begin(), begin() + n)]. *)
Definition erase_prefix (n : Z) (v : bytes) : bytes := skipn (Z.to_nat n) v.

Definition DECRYPTED_BUFFER_SIZE : Z := 65536.

(* Proofs never need to look inside a 65536-byte buffer. *)
Arguments resize : simpl never.
Arguments DECRYPTED_BUFFER_SIZE : simpl never.

(** Handles for the collaborators: the decorated [Http::Connection] and the
    two [std::function] delegates.  [None] is the null pointer, respectively
    the empty function. *)
Inductive Connection : Type := RawConnection (id : nat).
Inductive DataReceivedDelegate : Type := DataDelegate (id : nat).
Inductive BrokenDelegate : Type := BrokenDelegateFn (id : nat).

(** The part of [struct tls_config] the calls in [Connect] write. *)
Record tls_config : Type := {
  verify_cert : bool;
  verify_name : bool;
  protocols : Z
}.

(** [struct tls]: the configuration it was given and the server name. *)
Record tls : Type := {
  ctx_config : option tls_config;
  ctx_servername : option string
}.

(** The worker thread: where it stands, and its local [tryRead]. *)
Inductive WorkerPc : Type :=
| Starting      (* thread created, mutex not taken yet *)
| Waiting       (* inside wakeCondition_.wait, mutex released *)
| Delivering    (* mutex released around dataReceivedDelegate_ *)
| Stopped.      (* left the loop *)

Record WorkerThread : Type := {
  pc : WorkerPc;
  tryRead : bool
}.

(** The private properties of [TlsConnectionDecorator].  [worker_] is
    [None] while the [std::thread] is not joinable. *)
Record TlsConnectionDecorator : Type := {
  upperLayer_ : option Connection;
  dataReceivedDelegate_ : option DataReceivedDelegate;
  brokenDelegate_ : option BrokenDelegate;
  tlsImpl_ : option tls;
  tlsConfig_ : option tls_config;
  sendBuffer_ : bytes;
  receiveBufferSecure_ : bytes;
  receiveBufferDecrypted_ : bytes;
  open_ : bool;
  canWrite_ : bool;
  worker_ : option WorkerThread;
  stopWorker_ : bool
}.

(** Member initialisers and the default constructor. *)
Definition TlsConnectionDecorator_new : TlsConnectionDecorator :=
  {| upperLayer_ := None;
     dataReceivedDelegate_ := None;
     brokenDelegate_ := None;
     tlsImpl_ := None;
     tlsConfig_ := None;
     sendBuffer_ := [];
     receiveBufferSecure_ := [];
     receiveBufferDecrypted_ := [];
     open_ := true;
     canWrite_ := true;
     worker_ := None;
     stopWorker_ := true |}.

(** Field assignments. *)
Definition set_upperLayer_ (v : option Connection) (s : TlsConnectionDecorator) :=
  {| upperLayer_ := v;
     dataReceivedDelegate_ := dataReceivedDelegate_ s;
     brokenDelegate_ := brokenDelegate_ s;
     tlsImpl_ := tlsImpl_ s;
     tlsConfig_ := tlsConfig_ s;
     sendBuffer_ := sendBuffer_ s;
     receiveBufferSecure_ := receiveBufferSecure_ s;
     receiveBufferDecrypted_ := receiveBufferDecrypted_ s;
     open_ := open_ s;
     canWrite_ := canWrite_ s;
     worker_ := worker_ s;
     stopWorker_ := stopWorker_ s |}.

Definition set_dataReceivedDelegate_ (v : option DataReceivedDelegate) (s : TlsConnectionDecorator) :=
  {| upperLayer_ := upperLayer_ s;
     dataReceivedDelegate_ := v;
     brokenDelegate_ := brokenDelegate_ s;
     tlsImpl_ := tlsImpl_ s;
     tlsConfig_ := tlsConfig_ s;
     sendBuffer_ := sendBuffer_ s;
     receiveBufferSecure_ := receiveBufferSecure_ s;
     receiveBufferDecrypted_ := receiveBufferDecrypted_ s;
     open_ := open_ s;
     canWrite_ := canWrite_ s;
     worker_ := worker_ s;
     stopWorker_ := stopWorker_ s |}.

Definition set_brokenDelegate_ (v : option BrokenDelegate) (s : TlsConnectionDecorator) :=
  {| upperLayer_ := upperLayer_ s;
     dataReceivedDelegate_ := dataReceivedDelegate_ s;
     brokenDelegate_ := v;
     tlsImpl_ := tlsImpl_ s;
     tlsConfig_ := tlsConfig_ s;
     sendBuffer_ := sendBuffer_ s;
     receiveBufferSecure_ := receiveBufferSecure_ s;
     receiveBufferDecrypted_ := receiveBufferDecrypted_ s;
     open_ := open_ s;
     canWrite_ := canWrite_ s;
     worker_ := worker_ s;
     stopWorker_ := stopWorker_ s |}.

Definition set_tlsImpl_ (v : option tls) (s : TlsConnectionDecorator) :=
  {| upperLayer_ := upperLayer_ s;
     dataReceivedDelegate_ := dataReceivedDelegate_ s;
     brokenDelegate_ := brokenDelegate_ s;
     tlsImpl_ := v;
     tlsConfig_ := tlsConfig_ s;
     sendBuffer_ := sendBuffer_ s;
     receiveBufferSecure_ := receiveBufferSecure_ s;
     receiveBufferDecrypted_ := receiveBufferDecrypted_ s;
     open_ := open_ s;
     canWrite_ := canWrite_ s;
     worker_ := worker_ s;
     stopWorker_ := stopWorker_ s |}.

Definition set_tlsConfig_ (v : option tls_config) (s : TlsConnectionDecorator) :=
  {| upperLayer_ := upperLayer_ s;
     dataReceivedDelegate_ := dataReceivedDelegate_ s;
     brokenDelegate_ := brokenDelegate_ s;
     tlsImpl_ := tlsImpl_ s;
     tlsConfig_ := v;
     sendBuffer_ := sendBuffer_ s;
     receiveBufferSecure_ := receiveBufferSecure_ s;
     receiveBufferDecrypted_ := receiveBufferDecrypted_ s;
     open_ := open_ s;
     canWrite_ := canWrite_ s;
     worker_ := worker_ s;
     stopWorker_ := stopWorker_ s |}.

Definition set_sendBuffer_ (v : bytes) (s : TlsConnectionDecorator) :=
  {| upperLayer_ := upperLayer_ s;
     dataReceivedDelegate_ := dataReceivedDelegate_ s;
     brokenDelegate_ := brokenDelegate_ s;
     tlsImpl_ := tlsImpl_ s;
     tlsConfig_ := tlsConfig_ s;
     sendBuffer_ := v;
     receiveBufferSecure_ := receiveBufferSecure_ s;
     receiveBufferDecrypted_ := receiveBufferDecrypted_ s;
     open_ := open_ s;
     canWrite_ := canWrite_ s;
     worker_ := worker_ s;
     stopWorker_ := stopWorker_ s |}.

Definition set_receiveBufferSecure_ (v : bytes) (s : TlsConnectionDecorator) :=
  {| upperLayer_ := upperLayer_ s;
     dataReceivedDelegate_ := dataReceivedDelegate_ s;
     brokenDelegate_ := brokenDelegate_ s;
     tlsImpl_ := tlsImpl_ s;
     tlsConfig_ := tlsConfig_ s;
     sendBuffer_ := sendBuffer_ s;
     receiveBufferSecure_ := v;
     receiveBufferDecrypted_ := receiveBufferDecrypted_ s;
     open_ := open_ s;
     canWrite_ := canWrite_ s;
     worker_ := worker_ s;
     stopWorker_ := stopWorker_ s |}.

Definition set_receiveBufferDecrypted_ (v : bytes) (s : TlsConnectionDecorator) :=
  {| upperLayer_ := upperLayer_ s;
     dataReceivedDelegate_ := dataReceivedDelegate_ s;
     brokenDelegate_ := brokenDelegate_ s;
     tlsImpl_ := tlsImpl_ s;
     tlsConfig_ := tlsConfig_ s;
     sendBuffer_ := sendBuffer_ s;
     receiveBufferSecure_ := receiveBufferSecure_ s;
     receiveBufferDecrypted_ := v;
     open_ := open_ s;
     canWrite_ := canWrite_ s;
     worker_ := worker_ s;
     stopWorker_ := stopWorker_ s |}.

Definition set_open_ (v : bool) (s : TlsConnectionDecorator) :=
  {| upperLayer_ := upperLayer_ s;
     dataReceivedDelegate_ := dataReceivedDelegate_ s;
     brokenDelegate_ := brokenDelegate_ s;
     tlsImpl_ := tlsImpl_ s;
     tlsConfig_ := tlsConfig_ s;
     sendBuffer_ := sendBuffer_ s;
     receiveBufferSecure_ := receiveBufferSecure_ s;
     receiveBufferDecrypted_ := receiveBufferDecrypted_ s;
     open_ := v;
     canWrite_ := canWrite_ s;
     worker_ := worker_ s;
     stopWorker_ := stopWorker_ s |}.

Definition set_canWrite_ (v : bool) (s : TlsConnectionDecorator) :=
  {| upperLayer_ := upperLayer_ s;
     dataReceivedDelegate_ := dataReceivedDelegate_ s;
     brokenDelegate_ := brokenDelegate_ s;
     tlsImpl_ := tlsImpl_ s;
     tlsConfig_ := tlsConfig_ s;
     sendBuffer_ := sendBuffer_ s;
     receiveBufferSecure_ := receiveBufferSecure_ s;
     receiveBufferDecrypted_ := receiveBufferDecrypted_ s;
     open_ := open_ s;
     canWrite_ := v;
     worker_ := worker_ s;
     stopWorker_ := stopWorker_ s |}.

Definition set_worker_ (v : option WorkerThread) (s : TlsConnectionDecorator) :=
  {| upperLayer_ := upperLayer_ s;
     dataReceivedDelegate_ := dataReceivedDelegate_ s;
     brokenDelegate_ := brokenDelegate_ s;
     tlsImpl_ := tlsImpl_ s;
     tlsConfig_ := tlsConfig_ s;
     sendBuffer_ := sendBuffer_ s;
     receiveBufferSecure_ := receiveBufferSecure_ s;
     receiveBufferDecrypted_ := receiveBufferDecrypted_ s;
     open_ := open_ s;
     canWrite_ := canWrite_ s;
     worker_ := v;
     stopWorker_ := stopWorker_ s |}.

Definition set_stopWorker_ (v : bool) (s : TlsConnectionDecorator) :=
  {| upperLayer_ := upperLayer_ s;
     dataReceivedDelegate_ := dataReceivedDelegate_ s;
     brokenDelegate_ := brokenDelegate_ s;
     tlsImpl_ := tlsImpl_ s;
     tlsConfig_ := tlsConfig_ s;
     sendBuffer_ := sendBuffer_ s;
     receiveBufferSecure_ := receiveBufferSecure_ s;
     receiveBufferDecrypted_ := receiveBufferDecrypted_ s;
     open_ := open_ s;
     canWrite_ := canWrite_ s;
     worker_ := worker_ s;
     stopWorker_ := v |}.

(** ** What the object does to the outside *)

Inductive Action : Type :=
| UpperSendData (c : Connection) (data : bytes)        (* upperLayer_->SendData(data) *)
| UpperBreak (c : Connection) (clean : bool)           (* upperLayer_->Break(clean) *)
| CallDataReceived (d : DataReceivedDelegate) (data : bytes)
| CallBroken (d : BrokenDelegate) (clean : bool)
| CallTlsConfigure (cfg : tls_config)                  (* tls_configure(ctx, cfg) *)
| CallTlsConnectCbs (serverName : string)              (* tls_connect_cbs(...) *)
| CallTlsWrite (buf : bytes) (amount : Z)              (* tls_write(ctx, buf, size) = amount *)
| CallTlsRead (buflen : Z) (amount : Z)                (* tls_read(ctx, buf, buflen) = amount *)
| CopyToEngine (data : bytes)                          (* memcpy(_buf, ...) in the read hook *)
| StartWorker.                                         (* std::thread(&Worker, this) *)

(** A computation either finishes with a value and the actions it performed,
    cannot run now ([Blocked]: a thread that is not at that point, a wait
    whose predicate is false), or has no defined behaviour ([Undefined]: a
    null [upperLayer_] dereferenced, an iterator past the end). *)
Inductive Outcome (A : Type) : Type :=
| Ok (a : A) (log : list Action)
| Blocked
| Undefined.
Arguments Ok {A} a log.
Arguments Blocked {A}.
Arguments Undefined {A}.

Definition ret {A} (a : A) : Outcome A := Ok a [].

Definition bind {A B} (m : Outcome A) (k : A -> Outcome B) : Outcome B :=
  match m with
  | Ok a l =>
      match k a with
      | Ok b l' => Ok b (l ++ l')
      | Blocked => Blocked
      | Undefined => Undefined
      end
  | Blocked => Blocked
  | Undefined => Undefined
  end.

Definition emit (a : Action) : Outcome unit := Ok tt [a].

Notation "x <- m ;; k" := (bind m (fun x => k))
  (at level 61, m at next level, right associativity).
Notation "m ;;; k" := (bind m (fun _ => k))
  (at level 61, right associativity).

(** Dereferencing [upperLayer_]. *)
Definition deref (s : TlsConnectionDecorator) : Outcome Connection :=
  match upperLayer_ s with
  | Some c => ret c
  | None => Undefined
  end.

(** ** Engine calls, as the worker observes them *)

(** One invocation by the engine of a hook given to [tls_connect_cbs]. *)
Inductive HookCall : Type :=
| ReadHook (_buflen : Z)       (* the engine asks for up to _buflen bytes *)
| WriteHook (_buf : bytes).    (* the engine hands over ciphertext *)

(** One call of [tls_write] or [tls_read]: the hooks the engine invoked in
    order, the [ssize_t] it returned, and (for [tls_read]) the bytes it
    stored at the start of the buffer it was given. *)
Record EngineCall : Type := {
  hooks : list HookCall;
  amount : Z;
  stored : bytes
}.

(** What libtls and the decorated transport answer during [Connect]. *)
Record ConnectEnv : Type := {
  tls_config_new : tls_config;           (* the fresh configuration *)
  tls_configure_result : Z;
  tls_connect_cbs_result : Z;
  upper_Connect_result : option Connection   (* impl_->upperLayer->Connect(...) *)
}.

(** The three setters of libtls that [Connect] calls. *)
Definition tls_config_insecure_noverifycert (c : tls_config) : tls_config :=
  {| verify_cert := false; verify_name := verify_name c; protocols := protocols c |}.

Definition tls_config_insecure_noverifyname (c : tls_config) : tls_config :=
  {| verify_cert := verify_cert c; verify_name := false; protocols := protocols c |}.

Definition tls_config_set_protocols (p : Z) (c : tls_config) : tls_config :=
  {| verify_cert := verify_cert c; verify_name := verify_name c; protocols := p |}.

Definition tls_client : tls := {| ctx_config := None; ctx_servername := None |}.

Definition empty (v : bytes) : bool :=
  match v with
  | [] => true
  | _ :: _ => false
  end.

Definition joinable (w : option WorkerThread) : bool :=
  match w with
  | Some _ => true
  | None => false
  end.

(** The calls from other threads and the scheduling of the worker. *)
Inductive Event : Type :=
| EvSecureDataReceived (data : bytes)
| EvConnectionBroken
| EvSendData (data : bytes)
| EvBreak (clean : bool)
| EvSetDataReceivedDelegate (d : option DataReceivedDelegate)
| EvSetBrokenDelegate (d : option BrokenDelegate)
| EvDestructor
| EvWorker (wr rd : EngineCall)   (* the worker runs up to its next unlock *)
| EvDataDelivered.                (* dataReceivedDelegate_ has returned *)

Section Decorator.
Context {tls_h : LibTls}.

(** *** The hooks given to [tls_connect_cbs] *)

(** The read hook: the engine wants ciphertext. *)
Definition read_cb (self : TlsConnectionDecorator) (_buflen : Z)
  : Outcome (TlsConnectionDecorator * Z) :=
  let amt := Z.min _buflen (size (receiveBufferSecure_ self)) in
  if (amt =? 0) && open_ self then
    ret (self, TLS_WANT_POLLIN)
  else
    let self := set_canWrite_ true self in
    emit (CopyToEngine (firstn (Z.to_nat amt) (receiveBufferSecure_ self))) ;;;
    if amt =? size (receiveBufferSecure_ self) then
      ret (set_receiveBufferSecure_ [] self, amt)
    else
      ret (set_receiveBufferSecure_
             (erase_prefix amt (receiveBufferSecure_ self)) self, amt).

(** The write hook: the engine emits ciphertext. *)
Definition write_cb (self : TlsConnectionDecorator) (_buf : bytes)
  : Outcome (TlsConnectionDecorator * Z) :=
  if open_ self then
    c <- deref self ;;
    emit (UpperSendData c _buf) ;;;
    ret (self, size _buf)
  else
    ret (self, size _buf).

(** The hooks an engine call invokes, run in order on the object. *)
Fixpoint run_hooks (hs : list HookCall) (self : TlsConnectionDecorator)
  : Outcome TlsConnectionDecorator :=
  match hs with
  | [] => ret self
  | ReadHook n :: hs' =>
      r <- read_cb self n ;; run_hooks hs' (fst r)
  | WriteHook b :: hs' =>
      r <- write_cb self b ;; run_hooks hs' (fst r)
  end.

(** *** Calls from the decorated connection and from the caller *)

Definition SecureDataReceived (data : bytes) (s : TlsConnectionDecorator)
  : Outcome TlsConnectionDecorator :=
  ret (set_receiveBufferSecure_ (receiveBufferSecure_ s ++ data) s).

(** The two halves of [ConnectionBroken]: the block under the mutex, and
    the test that follows it. *)
Definition ConnectionBroken_locked (s : TlsConnectionDecorator)
  : TlsConnectionDecorator :=
  set_open_ false s.

Definition ConnectionBroken_notify (s : TlsConnectionDecorator)
  : Outcome unit :=
  if empty (receiveBufferSecure_ s) then
    match brokenDelegate_ s with
    | Some d => emit (CallBroken d false)
    | None => ret tt
    end
  else ret tt.

Definition ConnectionBroken (s : TlsConnectionDecorator)
  : Outcome TlsConnectionDecorator :=
  let s := ConnectionBroken_locked s in
  ConnectionBroken_notify s ;;; ret s.

Definition SetDataReceivedDelegate (d : option DataReceivedDelegate)
  (s : TlsConnectionDecorator) : Outcome TlsConnectionDecorator :=
  ret s.

Definition SetBrokenDelegate (d : option BrokenDelegate)
  (s : TlsConnectionDecorator) : Outcome TlsConnectionDecorator :=
  ret s.

Definition SendData (data : bytes) (s : TlsConnectionDecorator)
  : Outcome TlsConnectionDecorator :=
  ret (set_sendBuffer_ (sendBuffer_ s ++ data) s).

Definition Break (clean : bool) (s : TlsConnectionDecorator)
  : Outcome TlsConnectionDecorator :=
  c <- deref s ;;
  emit (UpperBreak c false) ;;;
  ret s.

(** The destructor up to [worker_.join()]. *)
Definition destructor (s : TlsConnectionDecorator)
  : Outcome TlsConnectionDecorator :=
  if joinable (worker_ s) then ret (set_stopWorker_ true s) else ret s.

(** *** The worker thread *)

(** The test made after a delivery: the connection is drained and closed. *)
Definition Worker_notify_broken (s : TlsConnectionDecorator) : Outcome unit :=
  if empty (receiveBufferSecure_ s) && negb (open_ s) then
    match brokenDelegate_ s with
    | Some d => emit (CallBroken d false)
    | None => ret tt
    end
  else ret tt.

(** First half of the loop body: the [tls_write] attempt. *)
Definition Worker_write (call : EngineCall) (s : TlsConnectionDecorator)
  : Outcome TlsConnectionDecorator :=
  if negb (empty (sendBuffer_ s)) && canWrite_ s && open_ s then
    emit (CallTlsWrite (sendBuffer_ s) (amount call)) ;;;
    s <- run_hooks (hooks call) s ;;
    if amount call =? TLS_WANT_POLLIN then
      ret (set_canWrite_ false s)
    else if amount call <? 0 then
      c <- deref s ;;
      emit (UpperBreak c false) ;;;
      ret s
    else if amount call =? size (sendBuffer_ s) then
      ret (set_sendBuffer_ [] s)
    else if amount call <? size (sendBuffer_ s) then
      ret (set_sendBuffer_ (erase_prefix (amount call) (sendBuffer_ s)) s)
    else
      Undefined   (* begin() + amount lies past end() *)
  else
    ret s.

(** The engine stores its plaintext at the start of the buffer. *)
Definition engine_store (plain : bytes) (s : TlsConnectionDecorator)
  : Outcome TlsConnectionDecorator :=
  if size plain <=? size (receiveBufferDecrypted_ s) then
    ret (set_receiveBufferDecrypted_
           (plain ++ skipn (length plain) (receiveBufferDecrypted_ s)) s)
  else
    Undefined.

(** Second half of the loop body: the [tls_read] attempt.  The result is
    the object, the new value of [tryRead], and where the worker goes:
    [Delivering] when it unlocks to call the delegate, [Waiting] when it
    reaches [wakeCondition_.wait]. *)
Definition Worker_read (call : EngineCall) (tryRead0 : bool)
  (s : TlsConnectionDecorator)
  : Outcome (TlsConnectionDecorator * bool * WorkerPc) :=
  if negb (empty (receiveBufferSecure_ s)) || tryRead0 then
    let s := set_receiveBufferDecrypted_
               (resize DECRYPTED_BUFFER_SIZE (receiveBufferDecrypted_ s)) s in
    emit (CallTlsRead (size (receiveBufferDecrypted_ s)) (amount call)) ;;;
    s <- run_hooks (hooks call) s ;;
    s <- engine_store (stored call) s ;;
    if amount call =? TLS_WANT_POLLIN then
      ret (s, true, Waiting)
    else if amount call =? TLS_WANT_POLLOUT then
      ret (s, true, Waiting)
    else if amount call <? 0 then
      c <- deref s ;;
      emit (UpperBreak c false) ;;;
      ret (s, true, Waiting)
    else if amount call >? 0 then
      let s := set_receiveBufferDecrypted_
                 (resize (amount call) (receiveBufferDecrypted_ s)) s in
      match dataReceivedDelegate_ s with
      | Some d =>
          emit (CallDataReceived d (receiveBufferDecrypted_ s)) ;;;
          ret (s, true, Delivering)
      | None =>
          Worker_notify_broken s ;;;
          ret (s, true, Waiting)
      end
    else
      ret (s, false, Waiting)
  else
    ret (s, tryRead0, Waiting).

(** The predicate given to [wakeCondition_.wait]. *)
Definition wake_predicate (s : TlsConnectionDecorator) : bool :=
  stopWorker_ s
  || negb (empty (receiveBufferSecure_ s))
  || (negb (empty (sendBuffer_ s)) && canWrite_ s).

(** From the loop test to the next point where the mutex is released. *)
Definition Worker_loop (wr rd : EngineCall) (tryRead0 : bool)
  (s : TlsConnectionDecorator) : Outcome TlsConnectionDecorator :=
  if stopWorker_ s then
    ret (set_worker_ (Some {| pc := Stopped; tryRead := tryRead0 |}) s)
  else
    s <- Worker_write wr s ;;
    r <- Worker_read rd tryRead0 s ;;
    let '(s, t, p) := r in
    ret (set_worker_ (Some {| pc := p; tryRead := t |}) s).

(** The worker is scheduled.  A thread that has just been created takes
    the mutex and sets [tryRead]; a thread inside [wait] leaves it only
    when the predicate holds. *)
Definition Worker (wr rd : EngineCall) (s : TlsConnectionDecorator)
  : Outcome TlsConnectionDecorator :=
  match worker_ s with
  | Some w =>
      match pc w with
      | Starting => Worker_loop wr rd true s
      | Waiting =>
          if wake_predicate s then Worker_loop wr rd (tryRead w) s
          else Blocked
      | Delivering => Blocked
      | Stopped => Blocked
      end
  | None => Blocked
  end.

(** The delegate has returned: the worker locks again, makes the test for
    a drained, closed connection and goes to [wait]. *)
Definition Worker_delivered (s : TlsConnectionDecorator)
  : Outcome TlsConnectionDecorator :=
  match worker_ s with
  | Some w =>
      match pc w with
      | Delivering =>
          Worker_notify_broken s ;;;
          ret (set_worker_ (Some {| pc := Waiting; tryRead := tryRead w |}) s)
      | _ => Blocked
      end
  | None => Blocked
  end.

(** *** Runs

    The worker holds the mutex from the moment it leaves [wait] (or starts,
    or comes back from a delivery) until it next releases it, so each such
    stretch is one step; the calls of other threads that take the mutex fall
    between those steps.  [ConnectionBroken] makes its test after releasing
    the mutex; the test is kept in the same step, and what it guarantees on
    its own is stated for any object it may find. *)

Definition step (e : Event) (s : TlsConnectionDecorator)
  : Outcome TlsConnectionDecorator :=
  match e with
  | EvSecureDataReceived data => SecureDataReceived data s
  | EvConnectionBroken => ConnectionBroken s
  | EvSendData data => SendData data s
  | EvBreak clean => Break clean s
  | EvSetDataReceivedDelegate d => SetDataReceivedDelegate d s
  | EvSetBrokenDelegate d => SetBrokenDelegate d s
  | EvDestructor => destructor s
  | EvWorker wr rd => Worker wr rd s
  | EvDataDelivered => Worker_delivered s
  end.

Fixpoint run (tr : list Event) (s : TlsConnectionDecorator)
  : Outcome TlsConnectionDecorator :=
  match tr with
  | [] => ret s
  | e :: tr' => s' <- step e s ;; run tr' s'
  end.

(** *** Establishing the connection *)

Definition configure_with (f : tls_config -> tls_config)
  (s : TlsConnectionDecorator) : TlsConnectionDecorator :=
  set_tlsConfig_ (option_map f (tlsConfig_ s)) s.

(** [TlsConnectionDecorator::Connect]. *)
Definition Connect (env : ConnectEnv)
  (upperLayer : option Connection)
  (dataReceivedDelegate : option DataReceivedDelegate)
  (brokenDelegate : option BrokenDelegate)
  (serverName : string)
  (s : TlsConnectionDecorator)
  : Outcome (TlsConnectionDecorator * bool) :=
  if joinable (worker_ s) then ret (s, false)
  else
    let s := set_upperLayer_ upperLayer s in
    let s := set_dataReceivedDelegate_ dataReceivedDelegate s in
    let s := set_brokenDelegate_ brokenDelegate s in
    let s := set_tlsConfig_ (Some (tls_config_new env)) s in
    let s := set_tlsImpl_ (Some tls_client) s in
    let s := configure_with tls_config_insecure_noverifycert s in
    let s := configure_with tls_config_insecure_noverifyname s in
    let s := configure_with (tls_config_set_protocols TLS_PROTOCOLS_DEFAULT) s in
    match tlsConfig_ s with
    | None => Undefined
    | Some cfg =>
        emit (CallTlsConfigure cfg) ;;;
        if negb (tls_configure_result env =? 0) then ret (s, false)
        else
          let s := set_tlsImpl_
                     (Some {| ctx_config := Some cfg; ctx_servername := None |}) s in
          emit (CallTlsConnectCbs serverName) ;;;
          if negb (tls_connect_cbs_result env =? 0) then ret (s, false)
          else
            let s := set_tlsImpl_
                       (Some {| ctx_config := Some cfg;
                                ctx_servername := Some serverName |}) s in
            let s := set_stopWorker_ false s in
            let s := set_worker_ (Some {| pc := Starting; tryRead := false |}) s in
            emit StartWorker ;;;
            ret (s, true)
    end.

(** [TlsDecorator::Connect]: [impl_upperLayer] is [impl_->upperLayer];
    the result is the returned pointer, [None] for [nullptr]. *)
Definition TlsDecorator_Connect (impl_upperLayer : option nat)
  (env : ConnectEnv)
  (hostNameOrAddress : string) (port : Z)
  (dataReceivedDelegate : option DataReceivedDelegate)
  (brokenDelegate : option BrokenDelegate)
  : Outcome (option TlsConnectionDecorator) :=
  let connectionDecorator := TlsConnectionDecorator_new in
  match impl_upperLayer with
  | None => Undefined
  | Some _ =>
      r <- Connect env (upper_Connect_result env)
             dataReceivedDelegate brokenDelegate hostNameOrAddress
             connectionDecorator ;;
      if negb (snd r) then ret None else ret (Some (fst r))
  end.

End Decorator.

(** ** Reading runs and logs *)

Definition is_broken_call (a : Action) : bool :=
  match a with
  | CallBroken _ _ => true
  | _ => false
  end.

(** How many times the broken delegate was called. *)
Definition broken_calls (log : list Action) : nat :=
  length (filter is_broken_call log).

(** The plaintext an engine call took: [tls_write] returning [n >= 0] has
    taken the first [n] bytes of the buffer it was shown. *)
Definition plaintext_taken (a : Action) : bytes :=
  match a with
  | CallTlsWrite buf n => if 0 <=? n then firstn (Z.to_nat n) buf else []
  | _ => []
  end.

(** The ciphertext copied to the engine by the read hook. *)
Definition ciphertext_taken (a : Action) : bytes :=
  match a with
  | CopyToEngine data => data
  | _ => []
  end.

Definition plaintext_submitted (e : Event) : bytes :=
  match e with
  | EvSendData data => data
  | _ => []
  end.

Definition ciphertext_received (e : Event) : bytes :=
  match e with
  | EvSecureDataReceived data => data
  | _ => []
  end.

(** The worker has left its loop after the destructor asked it to. *)
Definition lifetime_over (s : TlsConnectionDecorator) : bool :=
  stopWorker_ s &&
  match worker_ s with
  | Some w => match pc w with Stopped => true | _ => false end
  | None => false
  end.

(** ** Concrete objects and runs *)

Definition example_env : ConnectEnv :=
  {| tls_config_new := {| verify_cert := true; verify_name := true; protocols := 0 |};
     tls_configure_result := 0;
     tls_connect_cbs_result := 0;
     upper_Connect_result := Some (RawConnection 1) |}.

(** The object after a successful [Connect] with both delegates given. *)
Definition connected_example : TlsConnectionDecorator :=
  {| upperLayer_ := Some (RawConnection 1);
     dataReceivedDelegate_ := Some (DataDelegate 7);
     brokenDelegate_ := Some (BrokenDelegateFn 9);
     tlsImpl_ := Some {| ctx_config := Some {| verify_cert := false;
                                               verify_name := false;
                                               protocols := 8 |};
                         ctx_servername := Some "example.com"%string |};
     tlsConfig_ := Some {| verify_cert := false; verify_name := false; protocols := 8 |};
     sendBuffer_ := [];
     receiveBufferSecure_ := [];
     receiveBufferDecrypted_ := [];
     open_ := true;
     canWrite_ := true;
     worker_ := Some {| pc := Starting; tryRead := false |};
     stopWorker_ := false |}.

(** An engine call that invokes no hook and returns [n]. *)
Definition returns (n : Z) : EngineCall :=
  {| hooks := []; amount := n; stored := [] |}.

(** A lifetime in which the peer closes while the last plaintext chunk is
    being delivered: the handshake starts, three bytes of ciphertext arrive,
    the engine reads them all and yields two bytes of plaintext, the raw
    connection breaks during the delivery, the delegate returns, and the
    object is destroyed. *)
Definition break_during_delivery : list Event :=
  [ EvWorker (returns 0)
      {| hooks := [WriteHook [x16; x03]; ReadHook 5]; amount := -2; stored := [] |};
    EvSecureDataReceived [x17; x03; x03];
    EvWorker (returns 0)
      {| hooks := [ReadHook 5]; amount := 2; stored := [x68; x69] |};
    EvConnectionBroken;
    EvDataDelivered;
    EvDestructor;
    EvWorker (returns 0) (returns 0) ].

(** A lifetime in which the peer's last record and the break arrive before
    the worker wakes, and the engine reads that record as the end of the
    stream. *)
Definition break_then_end_of_stream : list Event :=
  [ EvWorker (returns 0)
      {| hooks := [WriteHook [x16; x03]; ReadHook 5]; amount := -2; stored := [] |};
    EvSecureDataReceived [x15; x03; x03];
    EvConnectionBroken;
    EvWorker (returns 0)
      {| hooks := [ReadHook 5]; amount := 0; stored := [] |};
    EvDestructor;
    EvWorker (returns 0) (returns 0) ].

(** An object with one byte of ciphertext buffered on an open connection. *)
Definition one_byte_buffered : TlsConnectionDecorator :=
  set_receiveBufferSecure_ [x2a] connected_example.

(** An object with four bytes of plaintext queued. *)
Definition four_bytes_queued : TlsConnectionDecorator :=
  set_sendBuffer_ [x01; x02; x03; x04] connected_example.

(** A worker in [wait] with nothing to do. *)
Definition waiting_idle : TlsConnectionDecorator :=
  set_worker_ (Some {| pc := Waiting; tryRead := false |}) connected_example.

(** Plaintext and ciphertext arrive while the worker waits; woken, the
    engine reads the ciphertext in two pieces during [tls_write] and takes
    two of the three queued bytes; more plaintext is queued afterwards. *)
Definition interleaved_traffic : list Event :=
  [ EvSendData [x01; x02; x03];
    EvSecureDataReceived [x2a; x2b];
    EvWorker {| hooks := [ReadHook 1; ReadHook 5; WriteHook [xaa]];
                amount := 2; stored := [] |}
             (returns 0);
    EvSendData [x04] ].

(** The decorated transport fails to connect; libtls is fine. *)
Definition upper_fails_env : ConnectEnv :=
  {| tls_config_new := {| verify_cert := true; verify_name := true; protocols := 0 |};
     tls_configure_result := 0;
     tls_connect_cbs_result := 0;
     upper_Connect_result := None |}.

(** The log and the value of a finished computation. *)
Definition log_of {A} (o : Outcome A) : option (list Action) :=
  match o with
  | Ok _ l => Some l
  | _ => None
  end.

Definition value_of {A} (o : Outcome A) : option A :=
  match o with
  | Ok a _ => Some a
  | _ => None
  end.

(** What a hook, and so an engine call's hooks together, leave alone, and
    how their log accounts for the ciphertext buffer. *)
Definition hooks_frame (s s' : TlsConnectionDecorator) (log : list Action) : Prop :=
  upperLayer_ s' = upperLayer_ s
  /\ dataReceivedDelegate_ s' = dataReceivedDelegate_ s
  /\ brokenDelegate_ s' = brokenDelegate_ s
  /\ sendBuffer_ s' = sendBuffer_ s
  /\ open_ s' = open_ s
  /\ worker_ s' = worker_ s
  /\ stopWorker_ s' = stopWorker_ s
  /\ receiveBufferDecrypted_ s' = receiveBufferDecrypted_ s
  /\ flat_map ciphertext_taken log ++ receiveBufferSecure_ s' = receiveBufferSecure_ s
  /\ flat_map plaintext_taken log = []
  /\ filter is_broken_call log = [].

(** What one pass of the worker leaves alone, and how its log accounts for
    both buffers. *)
Definition worker_frame (s s' : TlsConnectionDecorator) (log : list Action) : Prop :=
  upperLayer_ s' = upperLayer_ s
  /\ dataReceivedDelegate_ s' = dataReceivedDelegate_ s
  /\ brokenDelegate_ s' = brokenDelegate_ s
  /\ open_ s' = open_ s
  /\ stopWorker_ s' = stopWorker_ s
  /\ flat_map plaintext_taken log ++ sendBuffer_ s' = sendBuffer_ s
  /\ flat_map ciphertext_taken log ++ receiveBufferSecure_ s' = receiveBufferSecure_ s.

(** ** More of the object's interface *)

(** [GetPeerAddress] and [GetPeerId] hand the question to the decorated
    connection; [peer] is what that connection answers. *)
Definition GetPeerAddress (peer : Connection -> string)
  (s : TlsConnectionDecorator) : Outcome string :=
  c <- deref s ;; ret (peer c).

Definition GetPeerId (peer : Connection -> string)
  (s : TlsConnectionDecorator) : Outcome string :=
  c <- deref s ;; ret (peer c).

(** ** More ways to read a log *)

Definition is_upper_send (a : Action) : bool :=
  match a with
  | UpperSendData _ _ => true
  | _ => false
  end.

Definition is_tls_write (a : Action) : bool :=
  match a with
  | CallTlsWrite _ _ => true
  | _ => false
  end.

Definition is_copy_to_engine (a : Action) : bool :=
  match a with
  | CopyToEngine _ => true
  | _ => false
  end.

(** What the raw connection is sent when the engine invokes one hook on an
    open connection. *)
Definition hook_output (c : Connection) (h : HookCall) : list Action :=
  match h with
  | WriteHook b => [UpperSendData c b]
  | ReadHook _ => []
  end.

(** What a step that starts from [s] may do. *)
Definition step_action_ok (s : TlsConnectionDecorator) (a : Action) : Prop :=
  match a with
  | UpperSendData c _ => open_ s = true /\ upperLayer_ s = Some c
  | UpperBreak c clean => clean = false /\ upperLayer_ s = Some c
  | CallDataReceived d _ => dataReceivedDelegate_ s = Some d
  | CallBroken d clean => clean = false /\ brokenDelegate_ s = Some d
  | CallTlsWrite buf _ =>
      buf = sendBuffer_ s /\ buf <> [] /\ canWrite_ s = true /\ open_ s = true
  | CallTlsRead buflen _ => buflen = DECRYPTED_BUFFER_SIZE
  | CopyToEngine _ => True
  | CallTlsConfigure _ => False
  | CallTlsConnectCbs _ => False
  | StartWorker => False
  end.

(** What holds of every action of a run on an object whose raw connection
    and delegates are those of [s]. *)
Definition run_action_ok (s : TlsConnectionDecorator) (a : Action) : Prop :=
  match a with
  | UpperSendData c _ => upperLayer_ s = Some c
  | UpperBreak c clean => clean = false /\ upperLayer_ s = Some c
  | CallDataReceived d _ => dataReceivedDelegate_ s = Some d
  | CallBroken d clean => clean = false /\ brokenDelegate_ s = Some d
  | CallTlsWrite _ _ => True
  | CallTlsRead buflen _ => buflen = DECRYPTED_BUFFER_SIZE
  | CopyToEngine _ => True
  | CallTlsConfigure _ => False
  | CallTlsConnectCbs _ => False
  | StartWorker => False
  end.

(** The worker's position, if the thread exists. *)
Definition worker_pc (s : TlsConnectionDecorator) : option WorkerPc :=
  option_map pc (worker_ s).

(** What the hooks of an engine call may do on an object [s]. *)
Definition hook_action_ok (s : TlsConnectionDecorator) (a : Action) : Prop :=
  match a with
  | CopyToEngine _ => True
  | UpperSendData c _ => open_ s = true /\ upperLayer_ s = Some c
  | _ => False
  end.

(** * The program: [main.cpp]

    The command line gives the URL; the scheme selects the transport; the
    fetch is polled until it ends or the user interrupts.  [Uri::Uri],
    [Http::Client] and the diagnostics publisher are external: of a URI only
    the scheme and the port are read or written here, the parser and the
    printer are parameters, and what the program prints, publishes or asks
    of the client is recorded as a list of [Output]s. *)

Definition DEFAULT_HTTP_PORT : Z := 80.
Definition DEFAULT_HTTPS_PORT : Z := 443.

Record Uri : Type := {
  uri_scheme : string;
  uri_port : option Z;
  uri_rest : string          (* everything else the parser kept *)
}.

Definition GetScheme (u : Uri) : string := uri_scheme u.

Definition HasPort (u : Uri) : bool :=
  match uri_port u with
  | Some _ => true
  | None => false
  end.

Definition SetPort (p : Z) (u : Uri) : Uri :=
  {| uri_scheme := uri_scheme u; uri_port := Some p; uri_rest := uri_rest u |}.

(** A default-constructed [Uri::Uri]. *)
Definition Uri_new : Uri :=
  {| uri_scheme := ""; uri_port := None; uri_rest := "" |}.

Record Environment : Type := { url : Uri }.

(** [std::string::empty]. *)
Definition string_empty (s : string) : bool :=
  match s with
  | EmptyString => true
  | String _ _ => false
  end.

(** Levels of [SystemAbstractions::DiagnosticsSender]: the two named ones,
    whose numbers are not in the sources, and those given as a number. *)
Inductive Level : Type :=
| ERROR
| WARNING
| LevelNumber (n : Z).

Inductive TransportSetup : Type :=
| PlainTransport      (* the transport as constructed *)
| TlsTransport.       (* with the TLS connection factory set *)

(** [Http::Client::Transaction::State]; the states the program does not
    name fall under [OtherState]. *)
Inductive TransactionState : Type :=
| Completed
| UnableToConnect
| Broken
| TimedOut                     (* State::Timeout *)
| OtherState.

Record Response : Type := {
  statusCode : Z;
  reasonPhrase : string;
  headers : list (string * string);
  body : string
}.

Inductive Output : Type :=
| Diagnostic (senderName : string) (level : Level) (message : string)
| PrintUsageInformation
| ClientMobilize (setup : TransportSetup)     (* client.Mobilize(deps) *)
| ClientRequest (target : Uri)                (* client.Request(request, false) *)
| ClientDemobilize                            (* client.Demobilize() *)
| PrintStatusLine (code : Z) (reason : string)
| PrintHeader (name value : string)
| PrintRule
| WriteBody (text : string)
| WriteNewline.

(** One turn of the polling loop: what the test of [shutDown] and then
    [AwaitCompletion] gave. *)
Inductive Poll : Type :=
| SawShutDown
| StillWaiting
| Finished (state : TransactionState) (response : Response).

Inductive ExitCode : Type :=
| EXIT_SUCCESS
| EXIT_FAILURE.

Section Program.
Variable ParseFromString : string -> Uri -> bool * Uri.
Variable GenerateString : Uri -> string.

(** The loop over [argv[1..]]; [None] is the early [return false]. *)
Fixpoint ProcessCommandLineArguments_loop (args : list string)
  (urlString : string) : option string :=
  match args with
  | [] => Some urlString
  | arg :: rest =>
      if negb (string_empty urlString) then None
      else ProcessCommandLineArguments_loop rest arg
  end.

Definition ProcessCommandLineArguments (argv : list string)
  (environment : Environment) : bool * Environment * list Output :=
  match ProcessCommandLineArguments_loop (skipn 1 argv) "" with
  | None =>
      (false, environment, [Diagnostic "Rover" ERROR "multiple URLs given"])
  | Some urlString =>
      if string_empty urlString then
        (false, environment, [Diagnostic "Rover" ERROR "no URL given"])
      else
        let parsed := ParseFromString urlString (url environment) in
        if negb (fst parsed) then
          (false, {| url := snd parsed |},
           [Diagnostic "Rover" ERROR "bad URL given"])
        else
          let u := snd parsed in
          let scheme := GetScheme u in
          let u :=
            if (scheme =? "https")%string then
              if negb (HasPort u) then SetPort DEFAULT_HTTPS_PORT u else u
            else if (scheme =? "http")%string then
              if negb (HasPort u) then SetPort DEFAULT_HTTP_PORT u else u
            else u in
          (true, {| url := u |}, [])
  end.

Definition StartClient (environment : Environment) : bool * list Output :=
  let scheme := GetScheme (url environment) in
  if string_empty scheme then
    (false, [Diagnostic "Rover" ERROR "no scheme in URL"])
  else if (scheme =? "https")%string then
    (true, [ClientMobilize TlsTransport])
  else if (scheme =? "http")%string then
    (true, [ClientMobilize PlainTransport])
  else
    (false, [Diagnostic "Rover" ERROR "unsupported URL scheme"]).

(** The [switch] on the state of a transaction that has ended. *)
Definition report (state : TransactionState) (response : Response)
  : list Output :=
  match state with
  | Completed =>
      PrintStatusLine (statusCode response) (reasonPhrase response)
      :: map (fun h => PrintHeader (fst h) (snd h)) (headers response)
      ++ [PrintRule]
      ++ (if negb (string_empty (body response))
          then [WriteBody (body response); WriteNewline]
          else [])
  | UnableToConnect => [Diagnostic "Rover" ERROR "unable to connect"]
  | Broken => [Diagnostic "Rover" ERROR "connection broken by server"]
  | TimedOut => [Diagnostic "Rover" ERROR "timeout waiting for response"]
  | OtherState => []
  end.

(** The polling loop; [None] when the polls given run out with the loop
    still turning. *)
Fixpoint FetchResourceAndReport_loop (polls : list Poll)
  : option (list Output) :=
  match polls with
  | [] => None
  | SawShutDown :: _ => Some [Diagnostic "Rover" WARNING "Fetch Canceled"]
  | StillWaiting :: rest => FetchResourceAndReport_loop rest
  | Finished state response :: _ => Some (report state response)
  end.

Definition FetchResourceAndReport (environment : Environment)
  (polls : list Poll) : option (list Output) :=
  match FetchResourceAndReport_loop polls with
  | None => None
  | Some out =>
      Some (Diagnostic "Rover" (LevelNumber 1)
              ("Fetching '" ++ GenerateString (url environment) ++ "'...")
            :: ClientRequest (url environment)
            :: out)
  end.

Definition StopClient : list Output := [ClientDemobilize].

(** [main]; [None] when the fetch never ends. *)
Definition main (argv : list string) (polls : list Poll)
  : option (ExitCode * list Output) :=
  let '(ok, environment, out1) :=
    ProcessCommandLineArguments argv {| url := Uri_new |} in
  if negb ok then
    Some (EXIT_FAILURE, out1 ++ [PrintUsageInformation])
  else
    let '(started, out2) := StartClient environment in
    if negb started then
      Some (EXIT_FAILURE, out1 ++ out2)
    else
      match FetchResourceAndReport environment polls with
      | None => None
      | Some out3 =>
          Some (EXIT_SUCCESS,
                out1 ++ out2
                ++ [Diagnostic "Rover" (LevelNumber 3) "Web client up and running."]
                ++ out3
                ++ [Diagnostic "Rover" (LevelNumber 3) "Exiting..."]
                ++ StopClient)
      end.

End Program.

Definition is_mobilize (o : Output) : bool :=
  match o with
  | ClientMobilize _ => true
  | _ => false
  end.

Definition is_demobilize (o : Output) : bool :=
  match o with
  | ClientDemobilize => true
  | _ => false
  end.

(** Output that shows the response of the server. *)
Definition is_response_output (o : Output) : bool :=
  match o with
  | PrintStatusLine _ _ | PrintHeader _ _ | PrintRule
  | WriteBody _ | WriteNewline => true
  | _ => false
  end.

(** Output that neither starts nor stops the client nor prints the usage. *)
Definition is_plain_output (o : Output) : bool :=
  match o with
  | ClientMobilize _ | ClientDemobilize | PrintUsageInformation => false
  | _ => true
  end.

(** ** More concrete objects *)

(** A waiting worker on a connection that has broken, one byte queued. *)
Definition closed_with_plaintext : TlsConnectionDecorator :=
  set_open_ false (set_sendBuffer_ [x01] waiting_idle).

(** A waiting worker after [tls_write] answered would-block-on-read. *)
Definition write_blocked : TlsConnectionDecorator :=
  set_canWrite_ false (set_sendBuffer_ [x01] waiting_idle).

(** The engine reads a five-byte record and yields two bytes of plaintext. *)
Definition two_bytes_decrypted : EngineCall :=
  {| hooks := [ReadHook 5]; amount := 2; stored := [x68; x69] |}.

(** A stand-in for the URI parser and printer: everything is an [https]
    URL without a port. *)
Definition parse_as_https (text : string) (old : Uri) : bool * Uri :=
  (true, {| uri_scheme := "https"; uri_port := None; uri_rest := text |}).

Definition print_rest (u : Uri) : string := uri_rest u.

(** A response that was never read. *)
Definition no_response : Response :=
  {| statusCode := 0; reasonPhrase := ""; headers := []; body := "" |}.

(** ** The worker's passes *)

Definition is_tls_read (a : Action) : bool :=
  match a with
  | CallTlsRead _ _ => true
  | _ => false
  end.

(** The value of [tryRead] a pass works with: the initialiser [true] at the
    thread's first pass, what the last pass left otherwise. *)
Definition pass_tryRead (w : WorkerThread) : bool :=
  match pc w with
  | Starting => true
  | _ => tryRead w
  end.


(** A worker whose last pass left [tryRead] off, and one byte of ciphertext
    that arrived since. *)
Definition flag_off_with_ciphertext : TlsConnectionDecorator :=
  set_worker_ (Some {| pc := Waiting; tryRead := false |}) one_byte_buffered.

(** The same with one byte of plaintext queued as well. *)
Definition flag_off_with_both : TlsConnectionDecorator :=
  set_sendBuffer_ [x01] flag_off_with_ciphertext.

(** [tls_write] during which the engine reads up to five bytes of
    ciphertext, and which takes one byte of plaintext. *)
Definition write_that_reads : EngineCall :=
  {| hooks := [ReadHook 5]; amount := 1; stored := [] |}.

(** ** Reasoning about outcomes *)

Lemma bind_Ok {A B} (m : Outcome A) (k : A -> Outcome B) b l :
  bind m k = Ok b l ->
  exists a l1 l2, m = Ok a l1 /\ k a = Ok b l2 /\ l = l1 ++ l2.
Proof.
  unfold bind. destruct m as [a l1| |]; try discriminate.
  destruct (k a) as [b' l2| |] eqn:E; try discriminate.
  intros H. inversion H; subst. exists a, l1, l2. auto.
Qed.


Lemma ret_Ok {A} (a b : A) l : ret a = Ok b l -> a = b /\ l = [].
Proof. unfold ret. intros H. inversion H. auto. Qed.

Lemma emit_Ok (x : Action) u l : emit x = Ok u l -> l = [x].
Proof. unfold emit. intros H. inversion H. auto. Qed.

(** Take apart a hypothesis that says a computation finished. *)
Ltac outcome_inv :=
  repeat match goal with
    | H : bind _ _ = Ok _ _ |- _ =>
        let a := fresh "a" in
        let l1 := fresh "l" in
        let l2 := fresh "l" in
        let H1 := fresh "Hm" in
        let H2 := fresh "Hk" in
        let H3 := fresh "Hl" in
        apply bind_Ok in H; destruct H as (a & l1 & l2 & H1 & H2 & H3);
        cbv beta in H2
    | H : ret _ = Ok _ _ |- _ =>
        apply ret_Ok in H; destruct H
    | H : emit _ = Ok _ _ |- _ => apply emit_Ok in H
    | H : Undefined = Ok _ _ |- _ => discriminate H
    | H : Blocked = Ok _ _ |- _ => discriminate H
    | H : (if ?c then _ else _) = Ok _ _ |- _ => destruct c eqn:?
    | H : match ?x with Some _ => _ | None => _ end = Ok _ _ |- _ =>
        destruct x eqn:?
    end.

Lemma size_nonneg (v : bytes) : 0 <= size v.
Proof. unfold size. lia. Qed.

Lemma size_zero_nil (v : bytes) : size v = 0 -> v = [].
Proof. unfold size. destruct v; simpl; [reflexivity | lia]. Qed.

Lemma empty_true_iff (v : bytes) : empty v = true <-> v = [].
Proof. destruct v; simpl; split; congruence. Qed.

Lemma empty_false_iff (v : bytes) : empty v = false <-> v <> [].
Proof. destruct v; simpl; split; congruence. Qed.

Lemma firstn_size (v : bytes) : firstn (Z.to_nat (size v)) v = v.
Proof. unfold size. rewrite Nat2Z.id. apply firstn_all. Qed.

Lemma skipn_size (v : bytes) : skipn (Z.to_nat (size v)) v = [].
Proof. unfold size. rewrite Nat2Z.id. apply skipn_all. Qed.

Lemma size_resize (n : Z) (v : bytes) : 0 <= n -> size (resize n v) = n.
Proof.
  intros Hn. unfold size, resize.
  rewrite length_app, length_firstn, repeat_length. lia.
Qed.

(** Shrinking a buffer to the bytes just stored at its start leaves exactly
    those bytes. *)
Lemma resize_stored (p rest : bytes) : resize (size p) (p ++ rest) = p.
Proof.
  unfold resize, size. rewrite Nat2Z.id, firstn_app, firstn_all, Nat.sub_diag.
  simpl. rewrite length_app.
  replace (length p - (length p + length rest))%nat with 0%nat by lia.
  simpl. rewrite !app_nil_r. reflexivity.
Qed.

Opaque resize.

Section HookProperties.
Context {tls_h : LibTls}.

Lemma read_cb_frame self n r log :
  read_cb self n = Ok r log -> hooks_frame self (fst r) log.
Proof.
  unfold read_cb. intros H. outcome_inv; subst; simpl; unfold hooks_frame; simpl.
  - repeat split; reflexivity.
  - match goal with E : (_ =? _) = true |- _ => apply Z.eqb_eq in E; rewrite E end.
    rewrite firstn_size, !app_nil_r. repeat split; reflexivity.
  - unfold erase_prefix. rewrite !app_nil_r, firstn_skipn.
    repeat split; reflexivity.
Qed.

Lemma write_cb_frame self b r log :
  write_cb self b = Ok r log -> hooks_frame self (fst r) log.
Proof.
  unfold write_cb, deref. intros H.
  outcome_inv; subst; simpl; unfold hooks_frame; repeat split; reflexivity.
Qed.

Lemma hooks_frame_trans s1 s2 s3 l1 l2 :
  hooks_frame s1 s2 l1 -> hooks_frame s2 s3 l2 -> hooks_frame s1 s3 (l1 ++ l2).
Proof.
  unfold hooks_frame.
  intros (A1 & A2 & A3 & A4 & A5 & A6 & A7 & A8 & A9 & A10 & A11)
         (B1 & B2 & B3 & B4 & B5 & B6 & B7 & B8 & B9 & B10 & B11).
  rewrite !flat_map_app, filter_app, A10, B10, A11, B11.
  repeat split; try congruence.
  rewrite <- A9, <- B9, app_assoc. reflexivity.
Qed.

Lemma run_hooks_frame hs : forall s s' log,
  run_hooks hs s = Ok s' log -> hooks_frame s s' log.
Proof.
  induction hs as [|h hs IH]; intros s s' log H; simpl in H.
  - outcome_inv; subst. unfold hooks_frame; simpl. repeat split; reflexivity.
  - destruct h; outcome_inv; subst.
    + eapply hooks_frame_trans; [eapply read_cb_frame | eapply IH]; eassumption.
    + eapply hooks_frame_trans; [eapply write_cb_frame | eapply IH]; eassumption.
Qed.

(** The read hook always returns. *)
Lemma read_cb_defined self n : exists r log, read_cb self n = Ok r log.
Proof.
  unfold read_cb.
  destruct ((Z.min n (size (receiveBufferSecure_ self)) =? 0) && open_ self).
  - unfold ret. eauto.
  - simpl.
    destruct (Z.min n (size (receiveBufferSecure_ self))
              =? size (receiveBufferSecure_ self)); simpl; eauto.
Qed.

(** The write hook returns once the raw connection exists. *)
Lemma write_cb_defined self b c :
  upperLayer_ self = Some c -> exists log, write_cb self b = Ok (self, size b) log.
Proof.
  intros Hc. unfold write_cb, deref. rewrite Hc.
  destruct (open_ self); unfold bind, ret, emit; simpl; eauto.
Qed.

(** So do the hooks of a whole engine call. *)
Lemma run_hooks_defined hs : forall s c,
  upperLayer_ s = Some c -> exists s' log, run_hooks hs s = Ok s' log.
Proof.
  induction hs as [|h hs IH]; intros s c Hc; simpl.
  - unfold ret. eauto.
  - destruct h as [n|b].
    + destruct (read_cb_defined s n) as (r & l & E).
      pose proof (read_cb_frame _ _ _ _ E) as (F1 & _).
      destruct (IH (fst r) c) as (s' & l' & E'); [congruence|].
      rewrite E. unfold bind. rewrite E'. eauto.
    + destruct (write_cb_defined s b c Hc) as (l & E).
      destruct (IH s c Hc) as (s' & l' & E').
      rewrite E. unfold bind. simpl. rewrite E'. eauto.
Qed.


End HookProperties.

(** ** The worker's two attempts *)

(** Turn the tests of the code into facts for [lia]. *)
Ltac zbool :=
  repeat match goal with
    | H : (_ =? _) = true |- _ => apply Z.eqb_eq in H
    | H : (_ =? _) = false |- _ => apply Z.eqb_neq in H
    | H : (_ <? _) = true |- _ => apply Z.ltb_lt in H
    | H : (_ <? _) = false |- _ => apply Z.ltb_ge in H
    | H : (_ <=? _) = true |- _ => apply Z.leb_le in H
    | H : (_ <=? _) = false |- _ => apply Z.leb_gt in H
    | H : (_ >? _) = true |- _ => apply Z.gtb_lt in H
    | H : (_ >? _) = false |- _ => rewrite Z.gtb_ltb in H; apply Z.ltb_ge in H
    end.

Section WorkerProperties.
Context {tls_h : LibTls}.

Lemma hooks_worker_frame s s' log :
  hooks_frame s s' log -> worker_frame s s' log.
Proof.
  unfold hooks_frame, worker_frame.
  intros (A1 & A2 & A3 & A4 & A5 & A6 & A7 & A8 & A9 & A10 & A11).
  rewrite A10. simpl. repeat split; assumption.
Qed.

Lemma worker_frame_refl s : worker_frame s s [].
Proof. unfold worker_frame. simpl. repeat split; reflexivity. Qed.

Lemma worker_frame_trans s1 s2 s3 l1 l2 :
  worker_frame s1 s2 l1 -> worker_frame s2 s3 l2 -> worker_frame s1 s3 (l1 ++ l2).
Proof.
  unfold worker_frame.
  intros (A1 & A2 & A3 & A4 & A5 & A6 & A7) (B1 & B2 & B3 & B4 & B5 & B6 & B7).
  rewrite !flat_map_app.
  repeat split; try congruence.
  - rewrite <- A6, <- B6, app_assoc. reflexivity.
  - rewrite <- A7, <- B7, app_assoc. reflexivity.
Qed.

Lemma Worker_write_frame call s s' log :
  Worker_write call s = Ok s' log -> worker_frame s s' log.
Proof.
  unfold Worker_write, deref. intros H. outcome_inv; subst;
    try apply worker_frame_refl;
    match goal with
    | Hh : run_hooks _ _ = Ok _ _ |- _ =>
        apply run_hooks_frame in Hh;
        destruct Hh as (A1 & A2 & A3 & A4 & A5 & A6 & A7 & A8 & A9 & A10 & A11)
    end;
    unfold worker_frame; simpl;
    rewrite ?flat_map_app, ?A10, ?app_nil_r; simpl; rewrite ?app_nil_r;
    zbool; pose proof want_pollin_negative; pose proof (size_nonneg (sendBuffer_ s));
    destruct (Z.leb_spec 0 (amount call)); try lia;
    simpl; repeat split; try assumption.
  - match goal with E : amount call = _ |- _ => rewrite E, A4 end.
    apply firstn_size.
  - rewrite A4. apply firstn_skipn.
Qed.

Lemma engine_store_frame plain s s' log :
  engine_store plain s = Ok s' log -> worker_frame s s' log /\ log = [].
Proof.
  unfold engine_store. intros H. outcome_inv; subst.
  split; [|reflexivity].
  unfold worker_frame; simpl. repeat split; reflexivity.
Qed.

Lemma Worker_notify_broken_log s u log :
  Worker_notify_broken s = Ok u log ->
  flat_map plaintext_taken log = [] /\ flat_map ciphertext_taken log = [].
Proof.
  unfold Worker_notify_broken. intros H. outcome_inv; subst; simpl; auto.
Qed.

Lemma Worker_read_frame call t s r log :
  Worker_read call t s = Ok r log -> worker_frame s (fst (fst r)) log.
Proof.
  unfold Worker_read, deref. intros H. outcome_inv; subst;
    try apply worker_frame_refl;
    repeat match goal with
    | Hh : run_hooks _ _ = Ok _ _ |- _ =>
        apply run_hooks_frame, hooks_worker_frame in Hh
    | Hs : engine_store _ _ = Ok _ _ |- _ =>
        apply engine_store_frame in Hs; destruct Hs as [Hs ?]; subst
    | Hn : Worker_notify_broken _ = Ok _ _ |- _ =>
        apply Worker_notify_broken_log in Hn; destruct Hn
    end;
    unfold worker_frame in *; simpl in *;
    repeat match goal with
      | H : _ /\ _ |- _ => destruct H
      end;
    rewrite ?flat_map_app; simpl; rewrite ?app_nil_r;
    repeat match goal with
      | H : flat_map _ ?l = [] |- _ => rewrite H
      end;
    rewrite ?app_nil_r;
    repeat split; congruence.
Qed.

Lemma Worker_loop_frame wr rd t s s' log :
  Worker_loop wr rd t s = Ok s' log -> worker_frame s s' log.
Proof.
  unfold Worker_loop. intros H.
  destruct (stopWorker_ s).
  - outcome_inv; subst. unfold worker_frame; simpl. repeat split; reflexivity.
  - outcome_inv.
    match goal with r : (_ * _ * _)%type |- _ => destruct r as [[s2 t2] p2] end.
    outcome_inv; subst.
    match goal with
    | Hw : Worker_write _ _ = Ok _ _, Hr : Worker_read _ _ _ = Ok _ _ |- _ =>
        apply Worker_write_frame in Hw; apply Worker_read_frame in Hr;
        pose proof (worker_frame_trans _ _ _ _ _ Hw Hr) as F
    end.
    rewrite app_nil_r. simpl in F.
    unfold worker_frame in *; simpl. exact F.
Qed.

(** No call of the broken delegate is hidden in the hooks' log. *)
Lemma no_broken_call_in l d c :
  filter is_broken_call l = [] -> ~ In (CallBroken d c) l.
Proof.
  intros F Hin.
  assert (Hf : In (CallBroken d c) (filter is_broken_call l))
    by (apply filter_In; split; [assumption | reflexivity]).
  rewrite F in Hf. exact Hf.
Qed.

(** The test after a delivery: a call means drained and closed. *)
Lemma Worker_notify_broken_only_drained s u log d c :
  Worker_notify_broken s = Ok u log ->
  In (CallBroken d c) log ->
  receiveBufferSecure_ s = [] /\ open_ s = false
  /\ c = false /\ brokenDelegate_ s = Some d.
Proof.
  unfold Worker_notify_broken. intros H Hin.
  outcome_inv; subst; simpl in Hin; try contradiction.
  destruct Hin as [Hin | []]. inversion Hin; subst.
  match goal with
  | E : _ && _ = true |- _ => apply andb_true_iff in E; destruct E as [E1 E2]
  end.
  apply empty_true_iff in E1. apply negb_true_iff in E2. auto.
Qed.

(** The test in the broken-notification handler: a call means drained. *)
Lemma ConnectionBroken_notify_only_drained s u log d c :
  ConnectionBroken_notify s = Ok u log ->
  In (CallBroken d c) log ->
  receiveBufferSecure_ s = [] /\ c = false /\ brokenDelegate_ s = Some d.
Proof.
  unfold ConnectionBroken_notify. intros H Hin.
  outcome_inv; subst; simpl in Hin; try contradiction.
  destruct Hin as [Hin | []]. inversion Hin; subst.
  match goal with E : empty _ = true |- _ => apply empty_true_iff in E end.
  auto.
Qed.

Lemma Worker_write_no_broken call s s' log :
  Worker_write call s = Ok s' log -> filter is_broken_call log = [].
Proof.
  unfold Worker_write, deref. intros H. outcome_inv; subst; try reflexivity;
    match goal with
    | Hh : run_hooks _ _ = Ok _ _ |- _ =>
        apply run_hooks_frame in Hh;
        destruct Hh as (_ & _ & _ & _ & _ & _ & _ & _ & _ & _ & A11)
    end;
    rewrite ?filter_app, A11; reflexivity.
Qed.

Lemma Worker_read_broken call t s r log d c :
  Worker_read call t s = Ok r log ->
  In (CallBroken d c) log ->
  receiveBufferSecure_ (fst (fst r)) = [] /\ open_ (fst (fst r)) = false
  /\ c = false /\ brokenDelegate_ (fst (fst r)) = Some d.
Proof.
  unfold Worker_read, deref. intros H Hin.
  outcome_inv; subst; simpl in Hin; try contradiction;
    repeat match goal with
    | Hs : engine_store _ _ = Ok _ _ |- _ =>
        apply engine_store_frame in Hs; destruct Hs as [_ ?]; subst
    end;
    match goal with
    | Hh : run_hooks _ _ = Ok _ _ |- _ =>
        apply run_hooks_frame in Hh;
        destruct Hh as (_ & _ & _ & _ & _ & _ & _ & _ & _ & _ & A11)
    end;
    destruct Hin as [Hin | Hin]; try discriminate Hin;
    apply in_app_or in Hin; destruct Hin as [Hin | Hin];
    try (exfalso; eapply no_broken_call_in; eassumption);
    simpl in Hin;
    repeat match goal with
      | Hx : _ \/ _ |- _ => destruct Hx as [Hx | Hx]; try discriminate Hx
      | Hx : False |- _ => destruct Hx
      end.
  rewrite app_nil_r in Hin.
  match goal with
  | Hn : Worker_notify_broken _ = Ok _ _ |- _ =>
      eapply Worker_notify_broken_only_drained in Hn; [| eassumption]
  end.
  simpl in *. assumption.
Qed.

Lemma Worker_loop_broken wr rd t s s' log d c :
  Worker_loop wr rd t s = Ok s' log ->
  In (CallBroken d c) log ->
  receiveBufferSecure_ s' = [] /\ open_ s' = false
  /\ c = false /\ brokenDelegate_ s' = Some d.
Proof.
  unfold Worker_loop. intros H Hin.
  destruct (stopWorker_ s).
  - outcome_inv; subst. contradiction.
  - outcome_inv.
    match goal with r : (_ * _ * _)%type |- _ => destruct r as [[s2 t2] p2] end.
    outcome_inv; subst. rewrite app_nil_r in Hin.
    apply in_app_or in Hin. destruct Hin as [Hin | Hin].
    + exfalso. eapply no_broken_call_in; [| eassumption].
      eapply Worker_write_no_broken; eassumption.
    + match goal with
      | Hr : Worker_read _ _ _ = Ok _ _ |- _ =>
          eapply Worker_read_broken in Hr; [| eassumption]
      end.
      simpl in *. assumption.
Qed.


End WorkerProperties.

(** ** Steps and runs *)

Section RunProperties.
Context {tls_h : LibTls}.

(** What any step leaves alone, and its account of both buffers. *)
Lemma step_frame e s s' log :
  step e s = Ok s' log ->
  upperLayer_ s' = upperLayer_ s
  /\ dataReceivedDelegate_ s' = dataReceivedDelegate_ s
  /\ brokenDelegate_ s' = brokenDelegate_ s
  /\ flat_map plaintext_taken log ++ sendBuffer_ s'
     = sendBuffer_ s ++ plaintext_submitted e
  /\ flat_map ciphertext_taken log ++ receiveBufferSecure_ s'
     = receiveBufferSecure_ s ++ ciphertext_received e.
Proof.
  destruct e; simpl; intros H.
  - unfold SecureDataReceived in H. outcome_inv; subst; simpl.
    rewrite app_nil_r. repeat split; congruence.
  - unfold ConnectionBroken, ConnectionBroken_locked, ConnectionBroken_notify in H.
    simpl in H. outcome_inv; subst; simpl; rewrite !app_nil_r;
      repeat split; congruence.
  - unfold SendData in H. outcome_inv; subst; simpl.
    rewrite app_nil_r. repeat split; congruence.
  - unfold Break, deref in H. outcome_inv; subst; simpl.
    rewrite !app_nil_r. repeat split; congruence.
  - unfold SetDataReceivedDelegate in H. outcome_inv; subst; simpl.
    rewrite !app_nil_r. repeat split; congruence.
  - unfold SetBrokenDelegate in H. outcome_inv; subst; simpl.
    rewrite !app_nil_r. repeat split; congruence.
  - unfold destructor in H. outcome_inv; subst; simpl;
      rewrite !app_nil_r; repeat split; congruence.
  - unfold Worker in H.
    destruct (worker_ s) as [w|]; [| discriminate].
    destruct (pc w); try discriminate;
      [| destruct (wake_predicate s); [| discriminate]];
      apply Worker_loop_frame in H;
      destruct H as (A1 & A2 & A3 & A4 & A5 & A6 & A7);
      rewrite !app_nil_r; repeat split; assumption.
  - unfold Worker_delivered in H.
    destruct (worker_ s) as [w|]; [| discriminate].
    destruct (pc w); try discriminate.
    outcome_inv; subst.
    match goal with
    | Hn : Worker_notify_broken _ = Ok _ _ |- _ =>
        apply Worker_notify_broken_log in Hn; destruct Hn as [N1 N2]
    end.
    rewrite !app_nil_r, N1, N2. simpl. repeat split; congruence.
Qed.

(** The same over a whole run. *)
Lemma run_frame tr : forall s s' log,
  run tr s = Ok s' log ->
  upperLayer_ s' = upperLayer_ s
  /\ dataReceivedDelegate_ s' = dataReceivedDelegate_ s
  /\ brokenDelegate_ s' = brokenDelegate_ s
  /\ flat_map plaintext_taken log ++ sendBuffer_ s'
     = sendBuffer_ s ++ flat_map plaintext_submitted tr
  /\ flat_map ciphertext_taken log ++ receiveBufferSecure_ s'
     = receiveBufferSecure_ s ++ flat_map ciphertext_received tr.
Proof.
  induction tr as [|e tr IH]; intros s s' log H; simpl in H.
  - outcome_inv; subst; simpl. rewrite !app_nil_r. repeat split; reflexivity.
  - outcome_inv; subst.
    match goal with
    | Hs : step _ _ = Ok _ _, Hr : run _ _ = Ok _ _ |- _ =>
        apply step_frame in Hs; apply IH in Hr;
        destruct Hs as (A1 & A2 & A3 & A4 & A5);
        destruct Hr as (B1 & B2 & B3 & B4 & B5)
    end.
    simpl. rewrite !flat_map_app.
    repeat split; try congruence.
    + rewrite <- app_assoc, B4, app_assoc, A4, <- app_assoc. reflexivity.
    + rewrite <- app_assoc, B5, app_assoc, A5, <- app_assoc. reflexivity.
Qed.

End RunProperties.

(** ** The claims *)

Section Claims.
Context {tls_h : LibTls}.

(** C4 (as amended).  The read hook, asked for up to [B] bytes.  With
    ciphertext buffered and either [B >= 1] or the connection closed, it
    copies out the first [min B buffered] bytes, removes exactly that
    prefix and returns their number.  With nothing buffered on an open
    connection it returns the would-block sentinel and changes nothing;
    the same happens for [B = 0] on an open connection even when bytes
    are buffered.  With nothing buffered on a closed connection it
    returns zero. *)
Theorem read_cb_spec (self : TlsConnectionDecorator) (B : Z) :
  0 <= B ->
  let buffered := receiveBufferSecure_ self in
  let n := Z.min B (size buffered) in
  (buffered <> [] -> 1 <= B \/ open_ self = false ->
     read_cb self B
     = Ok (set_receiveBufferSecure_ (skipn (Z.to_nat n) buffered)
             (set_canWrite_ true self), n)
          [CopyToEngine (firstn (Z.to_nat n) buffered)]
     /\ firstn (Z.to_nat n) buffered ++ skipn (Z.to_nat n) buffered = buffered)
  /\ (open_ self = true -> buffered = [] \/ B = 0 ->
        read_cb self B = Ok (self, TLS_WANT_POLLIN) [])
  /\ (open_ self = false -> buffered = [] ->
        read_cb self B
        = Ok (set_receiveBufferSecure_ [] (set_canWrite_ true self), 0)
             [CopyToEngine []]).
Proof.
  intros HB buffered n. subst buffered n.
  pose proof (size_nonneg (receiveBufferSecure_ self)) as Hs.
  unfold read_cb.
  split; [intros Hne Hcase; split | split; intros Ho Hc].
  - destruct ((Z.min B (size (receiveBufferSecure_ self)) =? 0) && open_ self)
      eqn:E.
    + apply andb_true_iff in E. destruct E as [E1 E2]. apply Z.eqb_eq in E1.
      assert (size (receiveBufferSecure_ self) <> 0)
        by (intros Z0; apply size_zero_nil in Z0; contradiction).
      destruct Hcase as [H1 | H1]; [lia | congruence].
    + simpl.
      destruct (Z.min B (size (receiveBufferSecure_ self))
                =? size (receiveBufferSecure_ self)) eqn:E2.
      * apply Z.eqb_eq in E2. rewrite E2, skipn_size. reflexivity.
      * reflexivity.
  - apply firstn_skipn.
  - assert (Z.min B (size (receiveBufferSecure_ self)) = 0) as ->.
    { destruct Hc as [Hc | Hc]; [rewrite Hc; unfold size; simpl |]; lia. }
    rewrite Ho. reflexivity.
  - rewrite Hc, Ho. unfold size. simpl.
    rewrite Z.min_r by lia. simpl. rewrite Hc. reflexivity.
Qed.

(** C9.  The write hook, handed [L] bytes.  On a connection that is not
    open it forwards nothing and still reports [L]; on an open connection
    it sends exactly those bytes, in order, to the raw connection and
    reports [L]. *)
Theorem write_cb_spec (self : TlsConnectionDecorator) (_buf : bytes)
  (c : Connection) :
  upperLayer_ self = Some c ->
  (open_ self = false -> write_cb self _buf = Ok (self, size _buf) [])
  /\ (open_ self = true ->
        write_cb self _buf = Ok (self, size _buf) [UpperSendData c _buf]).
Proof.
  intros Hc. unfold write_cb, deref. rewrite Hc.
  split; intros Ho; rewrite Ho; reflexivity.
Qed.

(** C10.  Both delegate setters return the object as it was and do nothing
    else; and over any run of calls and worker steps the two delegates
    stay the ones the object started with. *)
Theorem set_delegates_are_noops :
  (forall d s, step (EvSetDataReceivedDelegate d) s = Ok s [])
  /\ (forall d s, step (EvSetBrokenDelegate d) s = Ok s [])
  /\ (forall tr s s' log,
        run tr s = Ok s' log ->
        dataReceivedDelegate_ s' = dataReceivedDelegate_ s
        /\ brokenDelegate_ s' = brokenDelegate_ s).
Proof.
  repeat split; try reflexivity;
    apply run_frame in H; destruct H as (_ & A2 & A3 & _); assumption.
Qed.

(** C7.  Both buffers are queues.  [SendData] and [SecureDataReceived]
    append their bytes at the tail and do nothing else; and over any run,
    what the engine has taken from a buffer so far, followed by what the
    buffer still holds, is what it held at the start followed by everything
    submitted since, in submission order.  [sendBuffer_] is emptied by
    [tls_write], [receiveBufferSecure_] by the read hook. *)
Theorem buffers_are_fifo :
  (forall data s,
      step (EvSendData data) s
      = Ok (set_sendBuffer_ (sendBuffer_ s ++ data) s) [])
  /\ (forall data s,
        step (EvSecureDataReceived data) s
        = Ok (set_receiveBufferSecure_ (receiveBufferSecure_ s ++ data) s) [])
  /\ (forall tr s s' log,
        run tr s = Ok s' log ->
        flat_map plaintext_taken log ++ sendBuffer_ s'
        = sendBuffer_ s ++ flat_map plaintext_submitted tr
        /\ flat_map ciphertext_taken log ++ receiveBufferSecure_ s'
           = receiveBufferSecure_ s ++ flat_map ciphertext_received tr).
Proof.
  split; [reflexivity |]. split; [reflexivity |].
  intros tr s s' log H. apply run_frame in H.
  destruct H as (_ & _ & _ & A4 & A5). split; assumption.
Qed.

(** The part of C1 the code does.  Whenever a step calls the broken
    delegate, the ciphertext buffer is empty and the connection is marked
    closed at that moment, the delegate called is the one held by the
    object, the argument is [false], and the step is one of the two sites:
    the broken-notification handler, or the worker after a decrypted chunk
    (directly, or once the data delegate has returned). *)
Lemma onBroken_only_when_drained (e : Event)
  (s s' : TlsConnectionDecorator) (log : list Action)
  (d : BrokenDelegate) (c : bool) :
  step e s = Ok s' log ->
  In (CallBroken d c) log ->
  receiveBufferSecure_ s' = []
  /\ open_ s' = false
  /\ c = false
  /\ brokenDelegate_ s' = Some d
  /\ (e = EvConnectionBroken
      \/ (exists wr rd, e = EvWorker wr rd)
      \/ e = EvDataDelivered).
Proof.
  destruct e; simpl; intros H Hin.
  - unfold SecureDataReceived in H. outcome_inv; subst. contradiction.
  - unfold ConnectionBroken in H. outcome_inv; subst.
    rewrite app_nil_r in Hin.
    match goal with
    | Hn : ConnectionBroken_notify _ = Ok _ _ |- _ =>
        eapply ConnectionBroken_notify_only_drained in Hn; [| eassumption];
        destruct Hn as (N1 & N2 & N3)
    end.
    simpl in *. auto 10.
  - unfold SendData in H. outcome_inv; subst. contradiction.
  - unfold Break, deref in H. outcome_inv; subst.
    simpl in Hin. destruct Hin as [Hin | []]. discriminate.
  - unfold SetDataReceivedDelegate in H. outcome_inv; subst. contradiction.
  - unfold SetBrokenDelegate in H. outcome_inv; subst. contradiction.
  - unfold destructor in H. outcome_inv; subst; contradiction.
  - unfold Worker in H.
    destruct (worker_ s) as [w|]; [| discriminate].
    destruct (pc w); try discriminate;
      [| destruct (wake_predicate s); [| discriminate]];
      eapply Worker_loop_broken in H; try eassumption;
      destruct H as (N1 & N2 & N3 & N4); eauto 10.
  - unfold Worker_delivered in H.
    destruct (worker_ s) as [w|]; [| discriminate].
    destruct (pc w); try discriminate.
    outcome_inv; subst. rewrite app_nil_r in Hin.
    match goal with
    | Hn : Worker_notify_broken _ = Ok _ _ |- _ =>
        eapply Worker_notify_broken_only_drained in Hn; [| eassumption];
        destruct Hn as (N1 & N2 & N3 & N4)
    end.
    simpl. auto 10.
Qed.

(** The write attempt on its own, from any object.  Unless [sendBuffer_]
    is non-empty and [canWrite_] and [open_] both hold, the engine is not
    called and nothing changes.  Otherwise [tls_write] is called with the
    whole [sendBuffer_]; a would-block-on-read result clears [canWrite_];
    a result of [n] bytes removes exactly the first [n] bytes and keeps
    the rest in order; any other negative result breaks the raw
    connection, not cleanly. *)
Lemma Worker_write_spec (call : EngineCall) (s : TlsConnectionDecorator)
  (c : Connection) :
  upperLayer_ s = Some c ->
  (sendBuffer_ s = [] \/ canWrite_ s = false \/ open_ s = false ->
     Worker_write call s = Ok s [])
  /\ (sendBuffer_ s <> [] -> canWrite_ s = true -> open_ s = true ->
      amount call <= size (sendBuffer_ s) ->
      exists s' rest,
        Worker_write call s
        = Ok s' (CallTlsWrite (sendBuffer_ s) (amount call) :: rest)
        /\ (amount call = TLS_WANT_POLLIN ->
              canWrite_ s' = false /\ sendBuffer_ s' = sendBuffer_ s)
        /\ (0 <= amount call ->
              sendBuffer_ s' = skipn (Z.to_nat (amount call)) (sendBuffer_ s)
              /\ firstn (Z.to_nat (amount call)) (sendBuffer_ s) ++ sendBuffer_ s'
                 = sendBuffer_ s)
        /\ (amount call < 0 -> amount call <> TLS_WANT_POLLIN ->
              In (UpperBreak c false) rest /\ sendBuffer_ s' = sendBuffer_ s)).
Proof.
  intros Hc. split.
  - intros Hg. unfold Worker_write.
    assert (negb (empty (sendBuffer_ s)) && canWrite_ s && open_ s = false) as ->.
    { destruct Hg as [Hg | [Hg | Hg]]; rewrite Hg; simpl;
        rewrite ?andb_false_r; reflexivity. }
    reflexivity.
  - intros Hne Hw Ho Hle.
    destruct (run_hooks_defined (hooks call) s c Hc) as (s1 & l1 & E).
    pose proof (run_hooks_frame _ _ _ _ E)
      as (F1 & _ & _ & F4 & _).
    pose proof want_pollin_negative as Hneg.
    unfold Worker_write, deref.
    apply empty_false_iff in Hne. rewrite Hne, Hw, Ho. simpl.
    rewrite E. simpl. rewrite F1, Hc, F4.
    destruct (amount call =? TLS_WANT_POLLIN) eqn:E1;
      [| destruct (amount call <? 0) eqn:E2;
         [| destruct (amount call =? size (sendBuffer_ s)) eqn:E3;
            [| destruct (amount call <? size (sendBuffer_ s)) eqn:E4]]];
      zbool; simpl; try lia;
      (eexists; eexists; split; [reflexivity |]); simpl;
      (split; [intros ? | split; [intros ? | intros ? ?]]);
      try lia; try congruence.
    + split; [reflexivity | exact F4].
    + split; [apply in_or_app; right; left; reflexivity | exact F4].
    + rewrite E3, skipn_size, firstn_size, app_nil_r. split; reflexivity.
    + unfold erase_prefix.
      split; [reflexivity | apply firstn_skipn].
Qed.


(** The read attempt on its own, from any object and any value of the
    flag.  It takes place exactly when ciphertext is buffered or the flag
    is set; the flag it returns is off when the engine returned 0 and on
    for every other result. *)
Lemma Worker_read_spec :
  (forall wr rd s w,
      worker_ s = Some w -> pc w = Starting ->
      step (EvWorker wr rd) s = Worker_loop wr rd true s)
  /\ (forall call s,
        receiveBufferSecure_ s = [] ->
        Worker_read call false s = Ok (s, false, Waiting) [])
  /\ (forall call t s c,
        upperLayer_ s = Some c ->
        size (stored call) <= DECRYPTED_BUFFER_SIZE ->
        receiveBufferSecure_ s <> [] \/ t = true ->
        exists s' t' p rest,
          Worker_read call t s
          = Ok (s', t', p)
               (CallTlsRead DECRYPTED_BUFFER_SIZE (amount call) :: rest)
          /\ (amount call = 0 -> t' = false)
          /\ (amount call <> 0 -> t' = true)).
Proof.
  split; [| split].
  - intros wr rd s w Hw Hp. simpl. unfold Worker. rewrite Hw, Hp. reflexivity.
  - intros call s Hr. unfold Worker_read. rewrite Hr. reflexivity.
  - intros call t s c Hc Hst Hg.
    assert (G : negb (empty (receiveBufferSecure_ s)) || t = true).
    { destruct Hg as [Hg | Hg].
      - apply empty_false_iff in Hg. rewrite Hg. reflexivity.
      - rewrite Hg. apply orb_true_r. }
    set (s0 := set_receiveBufferDecrypted_
                 (resize DECRYPTED_BUFFER_SIZE (receiveBufferDecrypted_ s)) s).
    assert (Hc0 : upperLayer_ s0 = Some c) by exact Hc.
    destruct (run_hooks_defined (hooks call) s0 c Hc0) as (s1 & l1 & E).
    pose proof (run_hooks_frame _ _ _ _ E)
      as (F1 & _ & _ & _ & _ & _ & _ & F8 & _).
    assert (Hsz : size (receiveBufferDecrypted_ s1) = DECRYPTED_BUFFER_SIZE).
    { rewrite F8. unfold s0. simpl. apply size_resize.
      unfold DECRYPTED_BUFFER_SIZE. lia. }
    pose proof want_pollin_negative as Hin.
    pose proof want_pollout_negative as Hout.
    unfold Worker_read, deref. rewrite G. fold s0.
    assert (size (receiveBufferDecrypted_ s0) = DECRYPTED_BUFFER_SIZE) as ->
      by (rewrite <- F8; exact Hsz).
    unfold bind at 1. unfold emit. unfold bind at 1. rewrite E.
    unfold bind at 1. unfold engine_store. rewrite Hsz.
    destruct (Z.leb_spec (size (stored call)) DECRYPTED_BUFFER_SIZE);
      [| lia].
    unfold ret at 1.
    destruct (amount call =? TLS_WANT_POLLIN) eqn:E1;
      [| destruct (amount call =? TLS_WANT_POLLOUT) eqn:E2;
         [| destruct (amount call <? 0) eqn:E3;
            [| destruct (amount call >? 0) eqn:E4]]];
      zbool; simpl.
    + do 4 eexists. split; [reflexivity |]. split; [lia | reflexivity].
    + do 4 eexists. split; [reflexivity |]. split; [lia | reflexivity].
    + rewrite F1, Hc0. simpl.
      do 4 eexists. split; [reflexivity |]. split; [lia | reflexivity].
    + destruct (dataReceivedDelegate_ s1); simpl.
      * do 4 eexists. split; [reflexivity |]. split; [lia | reflexivity].
      * unfold Worker_notify_broken. simpl.
        destruct (empty (receiveBufferSecure_ s1) && negb (open_ s1));
          [destruct (brokenDelegate_ s1) |]; simpl;
          (do 4 eexists; split; [reflexivity |]; split; [lia | reflexivity]).
    + do 4 eexists. split; [reflexivity |]. split; [reflexivity | lia].
Qed.

(** C8.  Whatever [Connect] is given, every configuration it hands to
    [tls_configure] has certificate and name verification off and the
    protocols set to [TLS_PROTOCOLS_DEFAULT]; when [Connect] succeeds
    that configuration was applied before [tls_connect_cbs] and before
    the worker was started, and it is the one the object keeps. *)
Theorem Connect_disables_verification (env : ConnectEnv)
  (upperLayer : option Connection)
  (dataReceivedDelegate : option DataReceivedDelegate)
  (brokenDelegate : option BrokenDelegate)
  (serverName : string)
  (s s' : TlsConnectionDecorator) (ok : bool) (log : list Action) :
  Connect env upperLayer dataReceivedDelegate brokenDelegate serverName s
  = Ok (s', ok) log ->
  (forall cfg, In (CallTlsConfigure cfg) log ->
               verify_cert cfg = false /\ verify_name cfg = false
               /\ protocols cfg = TLS_PROTOCOLS_DEFAULT)
  /\ (ok = true ->
      exists cfg,
        log = [CallTlsConfigure cfg; CallTlsConnectCbs serverName; StartWorker]
        /\ tlsConfig_ s' = Some cfg
        /\ tlsImpl_ s' = Some {| ctx_config := Some cfg;
                                 ctx_servername := Some serverName |}
        /\ verify_cert cfg = false /\ verify_name cfg = false
        /\ protocols cfg = TLS_PROTOCOLS_DEFAULT).
Proof.
  unfold Connect, configure_with. simpl. intros H.
  destruct (joinable (worker_ s)).
  - outcome_inv.
    match goal with Hx : (_, _) = (_, _) |- _ => inversion Hx; subst end.
    split; [intros cfg [] | discriminate].
  - unfold bind, emit, ret in H.
    destruct (negb (tls_configure_result env =? 0));
      [| destruct (negb (tls_connect_cbs_result env =? 0))];
      simpl in H; inversion H; subst; clear H; split;
      try discriminate;
      try (intros cfg Hin; simpl in Hin;
           repeat match goal with
             | Hx : _ \/ _ |- _ => destruct Hx as [Hx | Hx]
             | Hx : False |- _ => destruct Hx
             | Hx : _ = CallTlsConfigure _ |- _ => inversion Hx; subst; clear Hx
             end; simpl; auto).
    intros _. eexists. repeat split; reflexivity.
Qed.

(** The part of C2 the code does: a failure of [tls_configure] or of
    [tls_connect_cbs] makes [TlsDecorator::Connect] return the null
    pointer, and no worker is started. *)
Lemma TlsDecorator_Connect_tls_failure (env : ConnectEnv)
  (host : string) (port : Z)
  (dd : option DataReceivedDelegate) (bd : option BrokenDelegate) (t : nat) :
  tls_configure_result env <> 0 \/ tls_connect_cbs_result env <> 0 ->
  exists log,
    TlsDecorator_Connect (Some t) env host port dd bd = Ok None log
    /\ ~ In StartWorker log.
Proof.
  intros Hf. unfold TlsDecorator_Connect, Connect, configure_with. simpl.
  unfold bind, emit, ret.
  destruct (tls_configure_result env =? 0) eqn:E1; simpl.
  - destruct (tls_connect_cbs_result env =? 0) eqn:E2; simpl.
    + zbool. lia.
    + eexists. split; [reflexivity |].
      simpl. intros [Hx | [Hx | []]]; discriminate.
  - eexists. split; [reflexivity |].
    simpl. intros [Hx | []]; discriminate.
Qed.

(** C2, where the code departs from it.  When the decorated transport
    fails to connect and libtls raises no objection, [TlsDecorator::Connect]
    does not return the null pointer: it returns an object whose
    [upperLayer_] is null and whose worker has been started.  That
    worker's first pass has no defined behaviour as soon as the engine
    emits ciphertext. *)
Theorem TlsDecorator_Connect_upper_failure (env : ConnectEnv)
  (host : string) (port : Z)
  (dd : option DataReceivedDelegate) (bd : option BrokenDelegate) (t : nat) :
  upper_Connect_result env = None ->
  tls_configure_result env = 0 ->
  tls_connect_cbs_result env = 0 ->
  exists s cfg,
    TlsDecorator_Connect (Some t) env host port dd bd
    = Ok (Some s) [CallTlsConfigure cfg; CallTlsConnectCbs host; StartWorker]
    /\ upperLayer_ s = None
    /\ worker_ s = Some {| pc := Starting; tryRead := false |}
    /\ forall wr b hs n p,
        step (EvWorker wr {| hooks := WriteHook b :: hs;
                             amount := n; stored := p |}) s
        = Undefined.
Proof.
  intros Hu Hc Hb.
  unfold TlsDecorator_Connect, Connect, configure_with. simpl.
  rewrite Hu, Hc, Hb. simpl.
  eexists. eexists. split; [reflexivity |].
  split; [reflexivity |]. split; [reflexivity |].
  intros wr b hs n p. reflexivity.
Qed.

End Claims.

(** ** Beyond the claims: the hooks *)

Section HookExtras.
Context {tls_h : LibTls}.

Lemma read_cb_actions self n r log :
  read_cb self n = Ok r log ->
  Forall (hook_action_ok self) log
  /\ filter is_upper_send log = []
  /\ (filter is_copy_to_engine log = [] -> canWrite_ (fst r) = canWrite_ self).
Proof.
  unfold read_cb. intros H. outcome_inv; subst; simpl;
    repeat split; auto; try discriminate;
    repeat constructor.
Qed.

Lemma write_cb_actions self b r log :
  write_cb self b = Ok r log ->
  Forall (hook_action_ok self) log
  /\ fst r = self
  /\ (open_ self = false -> log = [])
  /\ (forall c, open_ self = true -> upperLayer_ self = Some c ->
                log = [UpperSendData c b]).
Proof.
  unfold write_cb, deref. intros H.
  destruct (open_ self) eqn:Ho; outcome_inv; subst; simpl.
  - repeat split; auto; try discriminate.
    + repeat constructor; assumption.
    + intros c _ Hc. congruence.
  - repeat split; auto; discriminate.
Qed.

Lemma hook_action_ok_same s1 s2 a :
  open_ s2 = open_ s1 -> upperLayer_ s2 = upperLayer_ s1 ->
  hook_action_ok s2 a -> hook_action_ok s1 a.
Proof.
  intros Ho Hu. destruct a; simpl; auto. rewrite Ho, Hu. auto.
Qed.

Lemma run_hooks_actions hs : forall s s' log,
  run_hooks hs s = Ok s' log -> Forall (hook_action_ok s) log.
Proof.
  induction hs as [|h hs IH]; intros s s' log H; simpl in H.
  - outcome_inv; subst. constructor.
  - destruct h; outcome_inv; subst; apply Forall_app; split.
    + eapply read_cb_actions; eassumption.
    + match goal with
      | Hr : read_cb _ _ = Ok _ _ |- _ =>
          apply read_cb_frame in Hr;
          destruct Hr as (F1 & _ & _ & _ & F5 & _)
      end.
      eapply Forall_impl; [| eapply IH; eassumption].
      intros x. apply hook_action_ok_same; assumption.
    + eapply write_cb_actions; eassumption.
    + match goal with
      | Hw : write_cb _ _ = Ok _ _ |- _ =>
          apply write_cb_actions in Hw; destruct Hw as (_ & W2 & _)
      end.
      match goal with
      | Hr : run_hooks _ _ = Ok _ _ |- _ => rewrite W2 in Hr
      end.
      eapply IH; eassumption.
Qed.

(** The hooks of one engine call leave [canWrite_] alone unless the read
    hook has copied ciphertext to the engine. *)
Lemma run_hooks_canWrite hs : forall s s' log,
  run_hooks hs s = Ok s' log ->
  filter is_copy_to_engine log = [] -> canWrite_ s' = canWrite_ s.
Proof.
  induction hs as [|h hs IH]; intros s s' log H Hf; simpl in H.
  - outcome_inv; subst. reflexivity.
  - destruct h; outcome_inv; subst; rewrite filter_app in Hf;
      apply app_eq_nil in Hf; destruct Hf as [Hf1 Hf2].
    + match goal with
      | Hr : read_cb _ _ = Ok _ _ |- _ =>
          apply read_cb_actions in Hr; destruct Hr as (_ & _ & R3)
      end.
      rewrite <- (R3 Hf1). eapply IH; eassumption.
    + match goal with
      | Hw : write_cb _ _ = Ok _ _ |- _ =>
          apply write_cb_actions in Hw; destruct Hw as (_ & W2 & _)
      end.
      rewrite <- W2. eapply IH; eassumption.
Qed.

(** X4.  Ciphertext the engine emits during one call reaches the raw connection
    whole and in the order emitted while the connection is open, and not at
    all once it is closed. *)
Theorem hooks_forward_ciphertext_in_order (hs : list HookCall) :
  forall (s s' : TlsConnectionDecorator) (log : list Action) (c : Connection),
    upperLayer_ s = Some c ->
    run_hooks hs s = Ok s' log ->
    filter is_upper_send log
    = if open_ s then flat_map (hook_output c) hs else [].
Proof.
  induction hs as [|h hs IH]; intros s s' log c Hc H; simpl in H.
  - outcome_inv; subst. destruct (open_ _); reflexivity.
  - destruct h as [n|b]; outcome_inv; subst; rewrite filter_app.
    + match goal with
      | Hr : read_cb _ _ = Ok _ _, Hh : run_hooks _ _ = Ok _ _ |- _ =>
          pose proof (read_cb_frame _ _ _ _ Hr) as (F1 & _ & _ & _ & F5 & _);
          apply read_cb_actions in Hr; destruct Hr as (_ & R2 & _);
          rewrite R2, (IH _ _ _ c (eq_trans F1 Hc) Hh), F5
      end.
      reflexivity.
    + match goal with
      | Hw : write_cb _ _ = Ok _ _, Hh : run_hooks _ _ = Ok _ _ |- _ =>
          apply write_cb_actions in Hw; destruct Hw as (_ & W2 & Hcl & Hop);
          rewrite W2 in Hh; rewrite (IH _ _ _ c Hc Hh)
      end.
      destruct (open_ s) eqn:Ho.
      * rewrite (Hop c eq_refl Hc). reflexivity.
      * rewrite (Hcl eq_refl). reflexivity.
Qed.

(** X5.  What the read hook returns is either the would-block sentinel, with
    nothing copied and nothing changed, or the number of bytes it copied:
    at most the number asked for and at most the number buffered, which
    leave the buffer. *)
Theorem read_cb_returns_in_bounds (self : TlsConnectionDecorator) (B : Z)
  (r : TlsConnectionDecorator * Z) (log : list Action) :
  0 <= B ->
  read_cb self B = Ok r log ->
  (snd r = TLS_WANT_POLLIN /\ log = [] /\ fst r = self)
  \/ (0 <= snd r <= B
      /\ snd r <= size (receiveBufferSecure_ self)
      /\ exists data,
          log = [CopyToEngine data]
          /\ size data = snd r
          /\ size (receiveBufferSecure_ (fst r))
             = size (receiveBufferSecure_ self) - snd r).
Proof.
  intros HB H.
  pose proof (size_nonneg (receiveBufferSecure_ self)) as Hs.
  unfold read_cb in H. outcome_inv; subst; simpl.
  - left. auto.
  - right. zbool. simpl in *. split; [lia |]. split; [lia |].
    eexists. split; [reflexivity |].
    unfold size in *. rewrite length_firstn. simpl. lia.
  - right. zbool. simpl in *. split; [lia |]. split; [lia |].
    eexists. split; [reflexivity |].
    unfold size, erase_prefix in *. rewrite length_firstn, length_skipn. lia.
Qed.

End HookExtras.

(** ** Beyond the claims: what a step may do *)

(** Split a statement about every action of a log along the log. *)
Ltac forall_split :=
  repeat first [ apply Forall_nil | apply Forall_cons | apply Forall_app; split ].

Section StepExtras.
Context {tls_h : LibTls}.

Lemma hook_action_step_ok s0 s a :
  open_ s0 = open_ s -> upperLayer_ s0 = upperLayer_ s ->
  hook_action_ok s0 a -> step_action_ok s a /\ is_tls_write a = false.
Proof.
  intros Ho Hu. destruct a; simpl; try contradiction; auto.
  rewrite Ho, Hu. auto.
Qed.

Lemma step_action_ok_transport s1 s a :
  upperLayer_ s1 = upperLayer_ s ->
  dataReceivedDelegate_ s1 = dataReceivedDelegate_ s ->
  brokenDelegate_ s1 = brokenDelegate_ s ->
  open_ s1 = open_ s ->
  step_action_ok s1 a /\ is_tls_write a = false ->
  step_action_ok s a.
Proof.
  intros Hu Hd Hb Ho [H Hw]. destruct a; simpl in *; try discriminate;
    rewrite <- ?Hu, <- ?Hd, <- ?Hb, <- ?Ho; assumption.
Qed.

Lemma Worker_notify_broken_actions s u log :
  Worker_notify_broken s = Ok u log ->
  Forall (fun a => step_action_ok s a /\ is_tls_write a = false) log
  /\ filter is_copy_to_engine log = [].
Proof.
  unfold Worker_notify_broken. intros H.
  outcome_inv; subst; split; try reflexivity; repeat constructor; assumption.
Qed.

Lemma Worker_write_actions call s s' log :
  Worker_write call s = Ok s' log ->
  Forall (step_action_ok s) log
  /\ (canWrite_ s = false -> log = [] /\ s' = s)
  /\ (open_ s = false -> log = [] /\ s' = s).
Proof.
  unfold Worker_write, deref. intros H.
  destruct (negb (empty (sendBuffer_ s)) && canWrite_ s && open_ s) eqn:G.
  - apply andb_true_iff in G. destruct G as [G Ho].
    apply andb_true_iff in G. destruct G as [Hne Hw].
    apply negb_true_iff, empty_false_iff in Hne.
    split; [| split; intros; congruence].
    outcome_inv; subst;
      match goal with
      | Hh : run_hooks _ _ = Ok _ _ |- _ =>
          pose proof (run_hooks_frame _ _ _ _ Hh) as (F1 & _);
          apply run_hooks_actions in Hh
      end;
      simpl; forall_split; simpl; auto;
      try (eapply Forall_impl; [| eassumption];
           intros x Hx;
           apply (hook_action_step_ok s s x eq_refl eq_refl Hx));
      try (split; congruence).
  - outcome_inv; subst. repeat split; auto.
Qed.

Lemma Worker_read_actions call t s r log :
  Worker_read call t s = Ok r log ->
  Forall (fun a => step_action_ok s a /\ is_tls_write a = false) log.
Proof.
  unfold Worker_read, deref. intros H.
  destruct (negb (empty (receiveBufferSecure_ s)) || t); [| outcome_inv; subst; constructor].
  set (s0 := set_receiveBufferDecrypted_
               (resize DECRYPTED_BUFFER_SIZE (receiveBufferDecrypted_ s)) s) in *.
  assert (Hsz : size (receiveBufferDecrypted_ s0) = DECRYPTED_BUFFER_SIZE).
  { unfold s0. simpl. apply size_resize. unfold DECRYPTED_BUFFER_SIZE. lia. }
  rewrite Hsz in H.
  apply bind_Ok in H. destruct H as (u & l1 & l2 & E1 & H & ->).
  apply emit_Ok in E1. subst l1.
  apply bind_Ok in H. destruct H as (s1 & l3 & l4 & E2 & H & ->).
  apply bind_Ok in H. destruct H as (s2 & l5 & l6 & E3 & H & ->).
  pose proof (run_hooks_frame _ _ _ _ E2)
    as (F1 & F2 & F3 & _ & F5 & _).
  apply run_hooks_actions in E2.
  apply engine_store_frame in E3. destruct E3 as [(G1 & G2 & G3 & G4 & _) ->].
  assert (Hhooks : Forall (fun a => step_action_ok s a /\ is_tls_write a = false) l3).
  { eapply Forall_impl; [| exact E2].
    intros x Hx. apply (hook_action_step_ok s0 s x eq_refl eq_refl Hx). }
  constructor; [simpl; auto |].
  apply Forall_app. split; [exact Hhooks |]. simpl.
  cbv beta in H.
  assert (U : upperLayer_ s2 = upperLayer_ s) by (rewrite G1, F1; reflexivity).
  assert (D : dataReceivedDelegate_ s2 = dataReceivedDelegate_ s)
    by (rewrite G2, F2; reflexivity).
  assert (Bd : brokenDelegate_ s2 = brokenDelegate_ s)
    by (rewrite G3, F3; reflexivity).
  assert (O : open_ s2 = open_ s) by (rewrite G4, F5; reflexivity).
  outcome_inv; subst; simpl in *; repeat constructor; simpl; try congruence.
  match goal with
  | Hn : Worker_notify_broken _ = Ok _ _ |- _ =>
      apply Worker_notify_broken_actions in Hn; destruct Hn as [Hn _]
  end.
  rewrite app_nil_r.
  eapply Forall_impl; [| eassumption].
  intros x [Hx Hw]. split; [| exact Hw].
  eapply step_action_ok_transport; [ | | | | split; eassumption]; simpl; assumption.
Qed.

Lemma Worker_loop_actions wr rd t s s' log :
  Worker_loop wr rd t s = Ok s' log -> Forall (step_action_ok s) log.
Proof.
  unfold Worker_loop. intros H.
  destruct (stopWorker_ s).
  - outcome_inv; subst. constructor.
  - outcome_inv.
    match goal with r : (_ * _ * _)%type |- _ => destruct r as [[s2 t2] p2] end.
    outcome_inv; subst. rewrite app_nil_r.
    match goal with
    | Hw : Worker_write _ _ = Ok _ _, Hr : Worker_read _ _ _ = Ok _ _ |- _ =>
        pose proof (Worker_write_frame _ _ _ _ Hw) as (A1 & A2 & A3 & A4 & _);
        apply Worker_write_actions in Hw; destruct Hw as (W1 & _);
        apply Worker_read_actions in Hr
    end.
    apply Forall_app. split; [assumption |].
    eapply Forall_impl; [| eassumption].
    intros x Hx. eapply step_action_ok_transport; eassumption.
Qed.

(** Every action of a step is one the state before it allows. *)
Lemma step_actions e s s' log :
  step e s = Ok s' log -> Forall (step_action_ok s) log.
Proof.
  destruct e; simpl; intros H.
  - unfold SecureDataReceived in H. outcome_inv; subst. constructor.
  - unfold ConnectionBroken, ConnectionBroken_locked, ConnectionBroken_notify in H.
    simpl in H. outcome_inv; subst; repeat constructor. assumption.
  - unfold SendData in H. outcome_inv; subst. constructor.
  - unfold Break, deref in H. outcome_inv; subst.
    repeat constructor. assumption.
  - unfold SetDataReceivedDelegate in H. outcome_inv; subst. constructor.
  - unfold SetBrokenDelegate in H. outcome_inv; subst. constructor.
  - unfold destructor in H. outcome_inv; subst; constructor.
  - unfold Worker in H.
    destruct (worker_ s) as [w|]; [| discriminate].
    destruct (pc w); try discriminate;
      [| destruct (wake_predicate s); [| discriminate]];
      eapply Worker_loop_actions; eassumption.
  - unfold Worker_delivered in H.
    destruct (worker_ s) as [w|]; [| discriminate].
    destruct (pc w); try discriminate.
    outcome_inv; subst. rewrite app_nil_r.
    match goal with
    | Hn : Worker_notify_broken _ = Ok _ _ |- _ =>
        apply Worker_notify_broken_actions in Hn; destruct Hn as [Hn _]
    end.
    eapply Forall_impl; [| eassumption]. intros x [Hx _]. exact Hx.
Qed.

End StepExtras.

(** ** Beyond the claims: whole runs *)

Section RunExtras.
Context {tls_h : LibTls}.

Lemma step_action_run_ok s a : step_action_ok s a -> run_action_ok s a.
Proof. destruct a; simpl; tauto. Qed.

Lemma run_action_ok_same s1 s a :
  upperLayer_ s1 = upperLayer_ s ->
  dataReceivedDelegate_ s1 = dataReceivedDelegate_ s ->
  brokenDelegate_ s1 = brokenDelegate_ s ->
  run_action_ok s1 a -> run_action_ok s a.
Proof.
  intros Hu Hd Hb. destruct a; simpl; rewrite ?Hu, ?Hd, ?Hb; auto.
Qed.

(** X1.  Over any run, every break of the raw connection is abrupt, whatever
    [clean] the caller asked for; all traffic and every break go to the
    raw connection the object holds; the only delegates called are the two
    the object holds, the broken delegate always with [false]; [tls_read]
    is always offered the full 65536-byte buffer; and the engine is never
    configured or connected again, nor a second worker started. *)
Theorem run_actions (tr : list Event) :
  forall (s s' : TlsConnectionDecorator) (log : list Action),
    run tr s = Ok s' log -> Forall (run_action_ok s) log.
Proof.
  induction tr as [|e tr IH]; intros s s' log H; simpl in H.
  - outcome_inv; subst. constructor.
  - outcome_inv; subst.
    match goal with
    | Hs : step _ _ = Ok _ _, Hr : run _ _ = Ok _ _ |- _ =>
        pose proof (step_frame _ _ _ _ Hs) as (A1 & A2 & A3 & _);
        apply step_actions in Hs; apply IH in Hr
    end.
    apply Forall_app. split.
    + eapply Forall_impl; [| eassumption]. intros x. apply step_action_run_ok.
    + eapply Forall_impl; [| eassumption].
      intros x. apply run_action_ok_same; assumption.
Qed.

Lemma step_open_stays_false e s s' log :
  step e s = Ok s' log -> open_ s = false -> open_ s' = false.
Proof.
  destruct e; simpl; intros H Ho.
  - unfold SecureDataReceived in H. outcome_inv; subst. exact Ho.
  - unfold ConnectionBroken in H. outcome_inv; subst. reflexivity.
  - unfold SendData in H. outcome_inv; subst. exact Ho.
  - unfold Break, deref in H. outcome_inv; subst. exact Ho.
  - unfold SetDataReceivedDelegate in H. outcome_inv; subst. exact Ho.
  - unfold SetBrokenDelegate in H. outcome_inv; subst. exact Ho.
  - unfold destructor in H. outcome_inv; subst; exact Ho.
  - unfold Worker in H.
    destruct (worker_ s) as [w|]; [| discriminate].
    destruct (pc w); try discriminate;
      [| destruct (wake_predicate s); [| discriminate]];
      apply Worker_loop_frame in H; destruct H as (_ & _ & _ & A4 & _);
      congruence.
  - unfold Worker_delivered in H.
    destruct (worker_ s) as [w|]; [| discriminate].
    destruct (pc w); try discriminate.
    outcome_inv; subst. exact Ho.
Qed.

Lemma no_tls_write_nothing_taken log :
  filter is_tls_write log = [] -> flat_map plaintext_taken log = [].
Proof.
  induction log as [|a log IH]; simpl; [reflexivity |].
  destruct a; simpl; try discriminate; assumption.
Qed.

Lemma closed_step_quiet s log :
  open_ s = false -> Forall (step_action_ok s) log ->
  filter is_upper_send log = [] /\ filter is_tls_write log = [].
Proof.
  intros Ho H. induction H as [|a l Ha Hl IH]; simpl; [auto |].
  destruct IH as [IH1 IH2].
  destruct a; simpl in *; auto; exfalso;
    [destruct Ha as (Ht & _) | destruct Ha as (_ & _ & _ & Ht)]; congruence.
Qed.

(** X2.  Once the raw connection has reported broken, it stays so: over any
    further run nothing is sent to it, the engine is not offered plaintext
    again, and whatever the caller sends only accumulates in [sendBuffer_]. *)
Theorem nothing_sent_after_break (tr : list Event) :
  forall (s s' : TlsConnectionDecorator) (log : list Action),
    open_ s = false ->
    run tr s = Ok s' log ->
    open_ s' = false
    /\ filter is_upper_send log = []
    /\ filter is_tls_write log = []
    /\ sendBuffer_ s' = sendBuffer_ s ++ flat_map plaintext_submitted tr.
Proof.
  intros s s' log Ho H.
  assert (G : open_ s' = false /\ filter is_upper_send log = []
              /\ filter is_tls_write log = []).
  { revert s s' log Ho H.
    induction tr as [|e tr IH]; intros s s' log Ho H; simpl in H.
    - outcome_inv; subst. auto.
    - outcome_inv; subst.
      match goal with
      | Hs : step _ _ = Ok _ _, Hr : run _ _ = Ok _ _ |- _ =>
          pose proof (step_open_stays_false _ _ _ _ Hs Ho) as Ho1;
          apply step_actions in Hs;
          destruct (closed_step_quiet _ _ Ho Hs) as [Q1 Q2];
          destruct (IH _ _ _ Ho1 Hr) as (R1 & R2 & R3)
      end.
      rewrite !filter_app, Q1, Q2, R2, R3. auto. }
  destruct G as (G1 & G2 & G3). repeat split; try assumption.
  apply run_frame in H. destruct H as (_ & _ & _ & A4 & _).
  rewrite (no_tls_write_nothing_taken _ G3) in A4. exact A4.
Qed.

Lemma Worker_read_canWrite call t s r log :
  Worker_read call t s = Ok r log ->
  filter is_copy_to_engine log = [] ->
  canWrite_ (fst (fst r)) = canWrite_ s.
Proof.
  unfold Worker_read, deref. intros H Hf.
  destruct (negb (empty (receiveBufferSecure_ s)) || t);
    [| outcome_inv; subst; reflexivity].
  apply bind_Ok in H. destruct H as (u & l1 & l2 & E1 & H & ->).
  apply emit_Ok in E1. subst l1.
  apply bind_Ok in H. destruct H as (s1 & l3 & l4 & E2 & H & ->).
  apply bind_Ok in H. destruct H as (s2 & l5 & l6 & E3 & H & ->).
  simpl in Hf. rewrite !filter_app in Hf.
  apply app_eq_nil in Hf. destruct Hf as [Hf _].
  apply run_hooks_canWrite in E2; [| exact Hf]. simpl in E2.
  assert (C2 : canWrite_ s2 = canWrite_ s1).
  { unfold engine_store in E3.
    destruct (size (stored call) <=? size (receiveBufferDecrypted_ s1));
      [| discriminate].
    apply ret_Ok in E3. destruct E3 as [<- _]. reflexivity. }
  cbv beta in H. outcome_inv; subst; simpl; congruence.
Qed.

Lemma step_canWrite_stays_false e s s' log :
  step e s = Ok s' log ->
  canWrite_ s = false ->
  filter is_copy_to_engine log = [] ->
  canWrite_ s' = false.
Proof.
  destruct e; simpl; intros H Hc Hf.
  - unfold SecureDataReceived in H. outcome_inv; subst. exact Hc.
  - unfold ConnectionBroken in H. outcome_inv; subst. exact Hc.
  - unfold SendData in H. outcome_inv; subst. exact Hc.
  - unfold Break, deref in H. outcome_inv; subst. exact Hc.
  - unfold SetDataReceivedDelegate in H. outcome_inv; subst. exact Hc.
  - unfold SetBrokenDelegate in H. outcome_inv; subst. exact Hc.
  - unfold destructor in H. outcome_inv; subst; exact Hc.
  - assert (L : forall t, Worker_loop wr rd t s = Ok s' log -> canWrite_ s' = false).
    { intros t HL. unfold Worker_loop in HL.
      destruct (stopWorker_ s).
      - outcome_inv; subst. exact Hc.
      - outcome_inv.
        match goal with r : (_ * _ * _)%type |- _ => destruct r as [[s2 t2] p2] end.
        outcome_inv; subst.
        match goal with
        | Hw : Worker_write _ _ = Ok _ _, Hr : Worker_read _ _ _ = Ok _ _ |- _ =>
            apply Worker_write_actions in Hw;
            destruct Hw as (_ & W2 & _); destruct (W2 Hc) as [-> ->];
            apply Worker_read_canWrite in Hr
        end.
        + simpl in *. congruence.
        + simpl in Hf. rewrite app_nil_r in Hf. exact Hf. }
    unfold Worker in H.
    destruct (worker_ s) as [w|]; [| discriminate].
    destruct (pc w); try discriminate;
      [| destruct (wake_predicate s); [| discriminate]];
      eapply L; eassumption.
  - unfold Worker_delivered in H.
    destruct (worker_ s) as [w|]; [| discriminate].
    destruct (pc w); try discriminate.
    outcome_inv; subst. exact Hc.
Qed.

Lemma blocked_step_no_write s log :
  canWrite_ s = false -> Forall (step_action_ok s) log ->
  filter is_tls_write log = [].
Proof.
  intros Hc H. induction H as [|a l Ha Hl IH]; simpl; [auto |].
  destruct a; simpl in *; auto. destruct Ha as (_ & _ & ? & _). congruence.
Qed.

(** Over a run that logs no copy to the engine, [canWrite_] stays off and
    [tls_write] is not called. *)
Lemma run_canWrite_stays_false (tr : list Event) :
  forall (s s' : TlsConnectionDecorator) (log : list Action),
    canWrite_ s = false ->
    run tr s = Ok s' log ->
    filter is_copy_to_engine log = [] ->
    canWrite_ s' = false /\ filter is_tls_write log = [].
Proof.
  induction tr as [|e tr IH]; intros s s' log Hc H Hf; simpl in H.
  - outcome_inv; subst. auto.
  - outcome_inv; subst. rewrite filter_app in Hf.
    apply app_eq_nil in Hf. destruct Hf as [Hf1 Hf2].
    match goal with
    | Hs : step _ _ = Ok _ _, Hr : run _ _ = Ok _ _ |- _ =>
        pose proof (step_canWrite_stays_false _ _ _ _ Hs Hc Hf1) as Hc1;
        apply step_actions in Hs;
        pose proof (blocked_step_no_write _ _ Hc Hs) as Q;
        destruct (IH _ _ _ Hc1 Hr Hf2) as (R1 & R2)
    end.
    rewrite filter_app, Q, R2. auto.
Qed.

(** X3.  While [canWrite_] is off ([tls_write] answered
    would-block-on-read), no run calls [tls_write] and [canWrite_] stays
    off as long as no invocation of the read hook gets past its would-block
    guard.  An invocation that returns the sentinel changes nothing; one
    that gets past the guard logs its copy and turns [canWrite_] on, even
    when it copies zero bytes, as it does on a closed connection with
    nothing buffered or asked for. *)
Theorem writes_wait_for_read_hook :
  (forall tr s s' log,
      canWrite_ s = false ->
      run tr s = Ok s' log ->
      filter is_copy_to_engine log = [] ->
      canWrite_ s' = false /\ filter is_tls_write log = [])
  /\ (forall self B r log,
        read_cb self B = Ok r log ->
        (log = [] /\ fst r = self /\ snd r = TLS_WANT_POLLIN)
        \/ (exists data, log = [CopyToEngine data] /\ canWrite_ (fst r) = true))
  /\ (forall self B,
        0 <= B ->
        open_ self = false ->
        receiveBufferSecure_ self = [] \/ B = 0 ->
        exists r,
          read_cb self B = Ok r [CopyToEngine []]
          /\ snd r = 0
          /\ canWrite_ (fst r) = true).
Proof.
  split; [| split].
  - intros tr s s' log. apply run_canWrite_stays_false.
  - intros self B r log H. unfold read_cb in H.
    outcome_inv; subst; simpl; [left; auto | right | right];
      eexists; split; reflexivity.
  - intros self B HB Ho Hc. unfold read_cb. rewrite Ho, andb_false_r.
    assert (Z.min B (size (receiveBufferSecure_ self)) = 0) as ->.
    { pose proof (size_nonneg (receiveBufferSecure_ self)).
      destruct Hc as [Hc | Hc]; [rewrite Hc; unfold size; simpl |]; lia. }
    simpl.
    destruct (size (receiveBufferSecure_ self)); simpl;
      eexists; repeat split; reflexivity.
Qed.


End RunExtras.

(** ** Beyond the claims: lifecycle *)

Section LifecycleExtras.
Context {tls_h : LibTls}.

Lemma Worker_write_defined call s c :
  upperLayer_ s = Some c ->
  amount call <= size (sendBuffer_ s) ->
  exists s' log, Worker_write call s = Ok s' log.
Proof.
  intros Hc Hle. unfold Worker_write, deref.
  destruct (negb (empty (sendBuffer_ s)) && canWrite_ s && open_ s);
    [| unfold ret; eauto].
  destruct (run_hooks_defined (hooks call) s c Hc) as (s1 & l1 & E).
  pose proof (run_hooks_frame _ _ _ _ E) as (F1 & _ & _ & F4 & _).
  unfold bind at 1. unfold emit. unfold bind at 1. rewrite E.
  rewrite F1, Hc, F4.
  destruct (amount call =? TLS_WANT_POLLIN);
    [| destruct (amount call <? 0);
       [| destruct (Z.eqb_spec (amount call) (size (sendBuffer_ s)));
          [| destruct (Z.ltb_spec (amount call) (size (sendBuffer_ s)))]]];
    simpl; eauto.
  lia.
Qed.

Lemma Worker_read_defined call t s c :
  upperLayer_ s = Some c ->
  size (stored call) <= DECRYPTED_BUFFER_SIZE ->
  exists r log, Worker_read call t s = Ok r log.
Proof.
  intros Hc Hst. unfold Worker_read, deref.
  destruct (negb (empty (receiveBufferSecure_ s)) || t);
    [| unfold ret; eauto].
  set (s0 := set_receiveBufferDecrypted_
               (resize DECRYPTED_BUFFER_SIZE (receiveBufferDecrypted_ s)) s).
  assert (Hc0 : upperLayer_ s0 = Some c) by exact Hc.
  destruct (run_hooks_defined (hooks call) s0 c Hc0) as (s1 & l1 & E).
  pose proof (run_hooks_frame _ _ _ _ E)
    as (F1 & _ & _ & _ & _ & _ & _ & F8 & _).
  assert (Hsz : size (receiveBufferDecrypted_ s1) = DECRYPTED_BUFFER_SIZE).
  { rewrite F8. unfold s0. simpl. apply size_resize.
    unfold DECRYPTED_BUFFER_SIZE. lia. }
  unfold bind at 1. unfold emit. unfold bind at 1. rewrite E.
  unfold bind at 1. unfold engine_store. rewrite Hsz.
  destruct (Z.leb_spec (size (stored call)) DECRYPTED_BUFFER_SIZE); [| lia].
  unfold ret at 1.
  destruct (amount call =? TLS_WANT_POLLIN);
    [| destruct (amount call =? TLS_WANT_POLLOUT);
       [| destruct (amount call <? 0);
          [| destruct (amount call >? 0)]]];
    simpl; eauto.
  - rewrite F1, Hc0. simpl. eauto.
  - destruct (dataReceivedDelegate_ s1); simpl; eauto.
    unfold Worker_notify_broken. simpl.
    destruct (empty (receiveBufferSecure_ s1) && negb (open_ s1));
      [destruct (brokenDelegate_ s1) |]; simpl; eauto.
Qed.

Lemma Worker_loop_defined wr rd t s c :
  upperLayer_ s = Some c ->
  amount wr <= size (sendBuffer_ s) ->
  size (stored rd) <= DECRYPTED_BUFFER_SIZE ->
  exists s' log, Worker_loop wr rd t s = Ok s' log.
Proof.
  intros Hc Hw Hr. unfold Worker_loop.
  destruct (stopWorker_ s); [unfold ret; eauto |].
  destruct (Worker_write_defined wr s c Hc Hw) as (s1 & l1 & E1).
  pose proof (Worker_write_frame _ _ _ _ E1) as (A1 & _).
  destruct (Worker_read_defined rd t s1 c) as ([[s2 t2] p2] & l2 & E2);
    [congruence | assumption |].
  rewrite E1. unfold bind at 1. rewrite E2. simpl. eauto.
Qed.

(** X7.  A chunk the engine decrypts reaches the data delegate as it is: when
    [tls_read] returns [n > 0] after storing [n] bytes, the delegate is
    called once, last, with exactly those bytes, whatever the scratch
    buffer held before, and the worker unlocks for the delivery. *)
Theorem delivered_plaintext_is_what_engine_stored (call : EngineCall)
  (t : bool) (s : TlsConnectionDecorator) (c : Connection)
  (d : DataReceivedDelegate) :
  upperLayer_ s = Some c ->
  dataReceivedDelegate_ s = Some d ->
  receiveBufferSecure_ s <> [] \/ t = true ->
  0 < amount call ->
  amount call = size (stored call) ->
  amount call <= DECRYPTED_BUFFER_SIZE ->
  exists s' hooklog,
    Worker_read call t s
    = Ok (s', true, Delivering)
         (CallTlsRead DECRYPTED_BUFFER_SIZE (amount call)
            :: hooklog ++ [CallDataReceived d (stored call)])
    /\ receiveBufferDecrypted_ s' = stored call
    /\ Forall (hook_action_ok s) hooklog.
Proof.
  intros Hc Hd Hg Hpos Hsize Hmax.
  assert (G : negb (empty (receiveBufferSecure_ s)) || t = true).
  { destruct Hg as [Hg | Hg].
    - apply empty_false_iff in Hg. rewrite Hg. reflexivity.
    - rewrite Hg. apply orb_true_r. }
  set (s0 := set_receiveBufferDecrypted_
               (resize DECRYPTED_BUFFER_SIZE (receiveBufferDecrypted_ s)) s).
  assert (Hc0 : upperLayer_ s0 = Some c) by exact Hc.
  destruct (run_hooks_defined (hooks call) s0 c Hc0) as (s1 & l1 & E).
  pose proof (run_hooks_frame _ _ _ _ E)
    as (F1 & F2 & _ & _ & _ & _ & _ & F8 & _).
  pose proof (run_hooks_actions _ _ _ _ E) as Hact.
  assert (Hsz : size (receiveBufferDecrypted_ s1) = DECRYPTED_BUFFER_SIZE).
  { rewrite F8. unfold s0. simpl. apply size_resize.
    unfold DECRYPTED_BUFFER_SIZE. lia. }
  pose proof want_pollin_negative as Hin.
  pose proof want_pollout_negative as Hout.
  unfold Worker_read, deref. rewrite G. fold s0.
  assert (size (receiveBufferDecrypted_ s0) = DECRYPTED_BUFFER_SIZE) as ->
    by (rewrite <- F8; exact Hsz).
  unfold bind at 1. unfold emit. unfold bind at 1. rewrite E.
  unfold bind at 1. unfold engine_store. rewrite Hsz.
  destruct (Z.leb_spec (size (stored call)) DECRYPTED_BUFFER_SIZE); [| lia].
  unfold ret at 1.
  destruct (Z.eqb_spec (amount call) TLS_WANT_POLLIN); [lia |].
  destruct (Z.eqb_spec (amount call) TLS_WANT_POLLOUT); [lia |].
  destruct (Z.ltb_spec (amount call) 0); [lia |].
  destruct (amount call >? 0) eqn:E4; [| zbool; lia].
  simpl. rewrite F2. change (dataReceivedDelegate_ s0) with (dataReceivedDelegate_ s).
  rewrite Hd. simpl. rewrite Hsize, resize_stored, ?app_nil_r.
  eexists. exists l1. split; [reflexivity |]. split; [reflexivity |].
  eapply Forall_impl; [| exact Hact].
  intros x. apply hook_action_ok_same; reflexivity.
Qed.

(** X8.  [Connect] always returns.  It succeeds exactly when no worker is
    running yet and both [tls_configure] and [tls_connect_cbs] return 0;
    when it fails it starts no worker; and in no case does it touch the
    buffers or the flags [open_] and [canWrite_], so what the raw connection
    delivered before [Connect] returned is kept. *)
Theorem Connect_succeeds_iff (env : ConnectEnv)
  (upperLayer : option Connection)
  (dd : option DataReceivedDelegate) (bd : option BrokenDelegate)
  (serverName : string) (s : TlsConnectionDecorator) :
  exists s' ok log,
    Connect env upperLayer dd bd serverName s = Ok (s', ok) log
    /\ (ok = true <->
        joinable (worker_ s) = false
        /\ tls_configure_result env = 0
        /\ tls_connect_cbs_result env = 0)
    /\ (ok = false ->
        worker_ s' = worker_ s /\ stopWorker_ s' = stopWorker_ s
        /\ ~ In StartWorker log)
    /\ sendBuffer_ s' = sendBuffer_ s
    /\ receiveBufferSecure_ s' = receiveBufferSecure_ s
    /\ open_ s' = open_ s
    /\ canWrite_ s' = canWrite_ s.
Proof.
  unfold Connect, configure_with. simpl.
  destruct (joinable (worker_ s)) eqn:J.
  - do 3 eexists. split; [reflexivity |].
    repeat split; try reflexivity; try discriminate.
    + intros (Hx & _). discriminate.
    + intros [].
  - unfold bind, emit, ret.
    destruct (Z.eqb_spec (tls_configure_result env) 0) as [E1 | E1]; simpl.
    + destruct (Z.eqb_spec (tls_connect_cbs_result env) 0) as [E2 | E2]; simpl.
      * do 3 eexists. split; [reflexivity |].
        repeat split; try reflexivity; try assumption; discriminate.
      * do 3 eexists. split; [reflexivity |].
        repeat split; try reflexivity; try discriminate.
        -- intros (_ & _ & Hx). contradiction.
        -- simpl. intros [Hx | [Hx | []]]; discriminate.
    + do 3 eexists. split; [reflexivity |].
      repeat split; try reflexivity; try discriminate.
      * intros (_ & Hx & _). contradiction.
      * simpl. intros [Hx | []]; discriminate.
Qed.

Lemma step_keeps_worker e s s' log :
  step e s = Ok s' log ->
  joinable (worker_ s) = true -> joinable (worker_ s') = true.
Proof.
  destruct e; simpl; intros H Hj.
  - unfold SecureDataReceived in H. outcome_inv; subst. simpl; congruence.
  - unfold ConnectionBroken in H. outcome_inv; subst. simpl; congruence.
  - unfold SendData in H. outcome_inv; subst. simpl; congruence.
  - unfold Break, deref in H. outcome_inv; subst. simpl; congruence.
  - unfold SetDataReceivedDelegate in H. outcome_inv; subst. simpl; congruence.
  - unfold SetBrokenDelegate in H. outcome_inv; subst. simpl; congruence.
  - unfold destructor in H. outcome_inv; subst; simpl; congruence.
  - assert (L : forall t, Worker_loop wr rd t s = Ok s' log ->
                          joinable (worker_ s') = true).
    { intros t HL. unfold Worker_loop in HL.
      destruct (stopWorker_ s).
      - outcome_inv; subst. reflexivity.
      - outcome_inv.
        match goal with r : (_ * _ * _)%type |- _ => destruct r as [[s2 t2] p2] end.
        outcome_inv; subst. reflexivity. }
    unfold Worker in H.
    destruct (worker_ s) as [w|]; [| discriminate].
    destruct (pc w); try discriminate;
      [| destruct (wake_predicate s); [| discriminate]];
      eapply L; eassumption.
  - unfold Worker_delivered in H.
    destruct (worker_ s) as [w|]; [| discriminate].
    destruct (pc w); try discriminate.
    outcome_inv; subst. reflexivity.
Qed.

Lemma run_keeps_worker tr : forall s s' log,
  run tr s = Ok s' log ->
  joinable (worker_ s) = true -> joinable (worker_ s') = true.
Proof.
  induction tr as [|e tr IH]; intros s s' log H Hj; simpl in H.
  - outcome_inv; subst. exact Hj.
  - outcome_inv; subst.
    eapply IH; [eassumption |]. eapply step_keeps_worker; eassumption.
Qed.

(** X9.  An object connects once: after a successful [Connect] and any run, a
    further [Connect], with whatever arguments, is refused at once, leaving
    the object, its raw connection and its delegates as they are. *)
Theorem Connect_refused_once_connected (env env' : ConnectEnv)
  (u u' : option Connection)
  (dd dd' : option DataReceivedDelegate) (bd bd' : option BrokenDelegate)
  (name name' : string) (tr : list Event)
  (s0 s s' : TlsConnectionDecorator) (log0 log : list Action) :
  Connect env u dd bd name s0 = Ok (s, true) log0 ->
  run tr s = Ok s' log ->
  Connect env' u' dd' bd' name' s' = Ok (s', false) [].
Proof.
  intros Hc Hr.
  assert (J : joinable (worker_ s) = true).
  { unfold Connect, configure_with in Hc. simpl in Hc.
    destruct (joinable (worker_ s0)).
    - apply ret_Ok in Hc. destruct Hc as [Hc _]. discriminate.
    - unfold bind, emit, ret in Hc.
      destruct (negb (tls_configure_result env =? 0));
        [| destruct (negb (tls_connect_cbs_result env =? 0))];
        simpl in Hc; inversion Hc; reflexivity. }
  pose proof (run_keeps_worker _ _ _ _ Hr J) as J'.
  unfold Connect. rewrite J'. reflexivity.
Qed.


(** X11.  What wakes a waiting worker.  Ciphertext arriving always does.
    Plaintext queued while [canWrite_] is off does not, and neither does
    the report that the raw connection broke: a worker that was blocked
    before either of them is still blocked after it. *)
Theorem what_wakes_the_worker (s : TlsConnectionDecorator) (data : bytes) :
  data <> [] ->
  (forall s1 log, step (EvSecureDataReceived data) s = Ok s1 log ->
                  wake_predicate s1 = true)
  /\ (forall s1 log, step (EvSendData data) s = Ok s1 log ->
                     wake_predicate s1 = wake_predicate s || canWrite_ s)
  /\ (forall s1 log, step EvConnectionBroken s = Ok s1 log ->
                     wake_predicate s1 = wake_predicate s).
Proof.
  intros Hd. split; [| split]; intros s1 log H; simpl in H.
  - unfold SecureDataReceived in H. outcome_inv; subst.
    unfold wake_predicate. simpl.
    destruct data; [contradiction |].
    destruct (receiveBufferSecure_ s), (stopWorker_ s); reflexivity.
  - unfold SendData in H. outcome_inv; subst.
    unfold wake_predicate. simpl.
    destruct data; [contradiction |].
    destruct (stopWorker_ s), (receiveBufferSecure_ s), (sendBuffer_ s),
      (canWrite_ s); reflexivity.
  - unfold ConnectionBroken in H. outcome_inv; subst. reflexivity.
Qed.

End LifecycleExtras.

(** ** Beyond the claims: the program *)

Lemma string_empty_true (s : string) : string_empty s = true <-> s = ""%string.
Proof. destruct s; simpl; split; congruence. Qed.

Lemma string_empty_false (s : string) : string_empty s = false <-> s <> ""%string.
Proof. destruct s; simpl; split; congruence. Qed.

(** The loop over the arguments returns a string exactly when every
    argument before the last is empty; it then returns the last one. *)
Lemma ProcessCommandLineArguments_loop_Some (args : list string) :
  forall acc u,
    ProcessCommandLineArguments_loop args acc = Some u
    <-> (args = [] /\ u = acc)
        \/ (acc = ""%string /\ exists k, args = repeat ""%string k ++ [u]).
Proof.
  induction args as [|a rest IH]; intros acc u; simpl.
  - split.
    + intros H. inversion H. auto.
    + intros [[_ ->] | (_ & k & Hk)]; [reflexivity |].
      destruct k; discriminate.
  - destruct (string_empty acc) eqn:E; simpl.
    + apply string_empty_true in E. subst acc. rewrite IH. split.
      * intros [[-> ->] | (-> & k & ->)]; right; split; try reflexivity.
        -- exists 0%nat. reflexivity.
        -- exists (S k). reflexivity.
      * intros [[Hx _] | (_ & k & Hk)]; [discriminate |].
        destruct k as [|k]; simpl in Hk; inversion Hk; subst.
        -- left. auto.
        -- right. split; [reflexivity |]. exists k. reflexivity.
    + apply string_empty_false in E. split; [discriminate |].
      intros [[Hx _] | (Hx & _)]; [discriminate | contradiction].
Qed.

(** It returns early exactly when some argument other than the last is not
    empty. *)
Lemma ProcessCommandLineArguments_loop_None (args : list string) :
  forall acc,
    (acc <> ""%string /\ args <> [])
    \/ (exists pre a post,
           args = pre ++ a :: post /\ a <> ""%string /\ post <> []) ->
    ProcessCommandLineArguments_loop args acc = None.
Proof.
  induction args as [|a rest IH]; intros acc H; simpl.
  - destruct H as [[_ Hx] | (pre & x & post & Hx & _)];
      [contradiction | destruct pre; discriminate].
  - destruct (string_empty acc) eqn:E; simpl; [| reflexivity].
    apply string_empty_true in E. subst acc. apply IH.
    destruct H as [[Hx _] | (pre & x & post & Hx & Hne & Hp)];
      [contradiction |].
    destruct pre as [|p pre]; simpl in Hx; inversion Hx; subst.
    + left. auto.
    + right. exists pre, x, post. auto.
Qed.

Section ProgramExtras.
Variable ParseFromString : string -> Uri -> bool * Uri.
Variable GenerateString : Uri -> string.

(** X12.  The command line is accepted exactly when it names one URL: every
    argument but the last is the empty string, the last is not, and it
    parses. *)
Theorem ProcessCommandLineArguments_accepts_iff (argv : list string)
  (environment : Environment) :
  fst (fst (ProcessCommandLineArguments ParseFromString argv environment)) = true
  <-> exists k u,
        skipn 1 argv = repeat ""%string k ++ [u]
        /\ u <> ""%string
        /\ fst (ParseFromString u (url environment)) = true.
Proof.
  unfold ProcessCommandLineArguments.
  generalize (skipn 1 argv) as args. intros args.
  destruct (ProcessCommandLineArguments_loop args "") as [u|] eqn:E.
  - apply ProcessCommandLineArguments_loop_Some in E.
    destruct (string_empty u) eqn:Eu; simpl.
    + apply string_empty_true in Eu. split; [discriminate |].
      intros (k & u' & Hk & Hne & _).
      destruct E as [[E1 _] | (_ & k' & E1)].
      * rewrite E1 in Hk. destruct k; discriminate.
      * rewrite E1 in Hk. apply (f_equal (@rev string)) in Hk.
        rewrite !rev_app_distr in Hk. simpl in Hk. congruence.
    + apply string_empty_false in Eu.
      destruct E as [[_ E1] | (_ & k & E1)]; [congruence |].
      destruct (fst (ParseFromString u (url environment))) eqn:Ep; simpl.
      * split; [| reflexivity]. intros _. exists k, u. auto.
      * split; [discriminate |].
        intros (k' & u' & Hk & _ & Hp).
        rewrite E1 in Hk. apply (f_equal (@rev string)) in Hk.
        rewrite !rev_app_distr in Hk. simpl in Hk. congruence.
  - simpl. split; [discriminate |].
    intros (k & u & Hk & _).
    assert (ProcessCommandLineArguments_loop args "" = Some u)
      by (apply ProcessCommandLineArguments_loop_Some; right; eauto).
    congruence.
Qed.

(** X13.  How the command line is turned down before any parsing.  With no
    argument, or only empty ones, the complaint is that no URL was given.
    With a non-empty argument followed by any other, even an empty one, the
    complaint is that several were given.  Either way the environment is
    left as it was. *)
Theorem ProcessCommandLineArguments_rejects (argv : list string)
  (environment : Environment) :
  (Forall (fun a => a = ""%string) (skipn 1 argv) ->
   ProcessCommandLineArguments ParseFromString argv environment
   = (false, environment, [Diagnostic "Rover" ERROR "no URL given"]))
  /\ ((exists pre a post,
          skipn 1 argv = pre ++ a :: post /\ a <> ""%string /\ post <> []) ->
      ProcessCommandLineArguments ParseFromString argv environment
      = (false, environment, [Diagnostic "Rover" ERROR "multiple URLs given"])).
Proof.
  unfold ProcessCommandLineArguments.
  generalize (skipn 1 argv) as args. intros args. split.
  - intros Hall.
    assert (E : exists u, ProcessCommandLineArguments_loop args ""
                          = Some u /\ u = ""%string).
    { destruct args as [|a rest _] using rev_ind.
      - exists ""%string. auto.
      - exists a. apply Forall_app in Hall. destruct Hall as [Hr Ha].
        inversion Ha; subst. split; [| reflexivity].
        apply ProcessCommandLineArguments_loop_Some. right.
        split; [reflexivity |]. exists (length rest).
        f_equal. clear -Hr. induction Hr as [|x l Hx Hl IH]; simpl;
          [reflexivity | subst x; f_equal; exact IH]. }
    destruct E as (u & -> & ->). reflexivity.
  - intros H.
    rewrite (ProcessCommandLineArguments_loop_None args ""); auto.
Qed.

(** X14.  An accepted URL keeps its scheme and an explicit port; without a port
    it gets 443 for [https], 80 for [http], and none for any other scheme. *)
Theorem ProcessCommandLineArguments_default_port (argv : list string)
  (environment environment' : Environment) (out : list Output) :
  ProcessCommandLineArguments ParseFromString argv environment
  = (true, environment', out) ->
  exists u parsed,
    ParseFromString u (url environment) = (true, parsed)
    /\ out = []
    /\ uri_scheme (url environment') = uri_scheme parsed
    /\ uri_rest (url environment') = uri_rest parsed
    /\ uri_port (url environment')
       = match uri_port parsed with
         | Some p => Some p
         | None =>
             if (uri_scheme parsed =? "https")%string then Some 443
             else if (uri_scheme parsed =? "http")%string then Some 80
             else None
         end.
Proof.
  unfold ProcessCommandLineArguments. intros H.
  destruct (ProcessCommandLineArguments_loop (skipn 1 argv) "") as [u|];
    [| discriminate].
  destruct (string_empty u); [discriminate |].
  destruct (ParseFromString u (url environment)) as [ok parsed] eqn:Ep.
  simpl in H. destruct ok; simpl in H; [| discriminate].
  exists u, parsed. split; [exact Ep |].
  unfold GetScheme, HasPort, SetPort in H.
  destruct (uri_port parsed) eqn:Eport;
    destruct (uri_scheme parsed =? "https")%string;
    destruct (uri_scheme parsed =? "http")%string;
    simpl in H; inversion H; subst; simpl; rewrite ?Eport; auto.
Qed.

(** The client is started exactly for the schemes [http] and [https], with
    the TLS connection factory exactly for [https]; otherwise nothing is
    mobilized and one error is published, which tells a missing scheme from
    an unsupported one. *)
Lemma StartClient_schemes (environment : Environment) :
  let scheme := uri_scheme (url environment) in
  (scheme = "https"%string ->
     StartClient environment = (true, [ClientMobilize TlsTransport]))
  /\ (scheme = "http"%string ->
       StartClient environment = (true, [ClientMobilize PlainTransport]))
  /\ (scheme = ""%string ->
       StartClient environment
       = (false, [Diagnostic "Rover" ERROR "no scheme in URL"]))
  /\ (scheme <> ""%string -> scheme <> "http"%string -> scheme <> "https"%string ->
       StartClient environment
       = (false, [Diagnostic "Rover" ERROR "unsupported URL scheme"])).
Proof.
  unfold StartClient, GetScheme. simpl.
  repeat split; intros.
  - rewrite H. reflexivity.
  - rewrite H. reflexivity.
  - rewrite H. reflexivity.
  - apply string_empty_false in H. rewrite H.
    apply String.eqb_neq in H0, H1. rewrite H0, H1. reflexivity.
Qed.

End ProgramExtras.

(** ** Beyond the claims: the fetch and the exit status *)

Lemma report_plain state response :
  Forall (fun o => is_plain_output o = true) (report state response).
Proof.
  destruct state; simpl; repeat constructor.
  apply Forall_app. split.
  - apply Forall_forall. intros o Ho. apply in_map_iff in Ho.
    destruct Ho as (h & <- & _). reflexivity.
  - destruct (negb (string_empty (body response))); repeat constructor.
Qed.

Lemma report_shows_response state response o :
  In o (report state response) -> is_response_output o = true ->
  state = Completed.
Proof.
  destruct state; simpl; auto; intros Hin Hr; exfalso;
    first [ exact Hin
          | destruct Hin as [Hin | Hin]; [subst o; discriminate | exact Hin] ].
Qed.

(** When the polling loop has ended, it ended at the first turn that saw
    the interrupt or the end of the transaction. *)
Lemma FetchResourceAndReport_loop_ends (polls : list Poll)
  (out : list Output) :
  FetchResourceAndReport_loop polls = Some out ->
  exists k rest,
    ((polls = repeat StillWaiting k ++ SawShutDown :: rest
      /\ out = [Diagnostic "Rover" WARNING "Fetch Canceled"])
     \/ (exists state response,
            polls = repeat StillWaiting k ++ Finished state response :: rest
            /\ out = report state response))
    /\ (forall o, In o out -> is_response_output o = true ->
        exists response,
          polls = repeat StillWaiting k ++ Finished Completed response :: rest).
Proof.
  induction polls as [|p polls IH]; simpl; [discriminate |].
  destruct p as [| | state response]; intros H.
  - inversion H; subst. exists 0%nat, polls. split.
    + left. auto.
    + intros o [Ho | []] Hr. subst o. discriminate.
  - destruct (IH H) as (k & rest & Hk & Hresp).
    exists (S k), rest. split.
    + destruct Hk as [[-> ->] | (st & r & -> & ->)];
        [left | right; exists st, r]; auto.
    + intros o Ho Hr. destruct (Hresp o Ho Hr) as (r & ->).
      exists r. reflexivity.
  - inversion H; subst. exists 0%nat, polls. split.
    + right. exists state, response. auto.
    + intros o Ho Hr.
      rewrite (report_shows_response _ _ _ Ho Hr). exists response. reflexivity.
Qed.

Lemma FetchResourceAndReport_loop_waits (k : nat) (polls : list Poll) :
  FetchResourceAndReport_loop (repeat StillWaiting k ++ polls)
  = FetchResourceAndReport_loop polls.
Proof. induction k as [|k IH]; simpl; [reflexivity | exact IH]. Qed.

(** X15.  How a fetch ends.  The polling loop goes on through the turns
    that see neither the interrupt nor the end of the transaction, ends at
    the first turn that sees one of them, whatever follows, and does not
    end before.  Seeing the interrupt publishes the warning that the fetch
    was cancelled and nothing else; seeing the transaction end gives the
    report for its state; and anything of the server's response is shown
    only for a transaction that completed. *)
Theorem FetchResourceAndReport_loop_outcome :
  (forall k rest,
      FetchResourceAndReport_loop (repeat StillWaiting k ++ SawShutDown :: rest)
      = Some [Diagnostic "Rover" WARNING "Fetch Canceled"])
  /\ (forall k state response rest,
        FetchResourceAndReport_loop
          (repeat StillWaiting k ++ Finished state response :: rest)
        = Some (report state response))
  /\ (forall k, FetchResourceAndReport_loop (repeat StillWaiting k) = None)
  /\ (forall polls,
        (exists k, polls = repeat StillWaiting k)
        \/ (exists k rest, polls = repeat StillWaiting k ++ SawShutDown :: rest)
        \/ (exists k state response rest,
               polls = repeat StillWaiting k ++ Finished state response :: rest))
  /\ (forall state response o,
        In o (report state response) -> is_response_output o = true ->
        state = Completed).
Proof.
  split; [| split; [| split; [| split]]].
  - intros k rest. rewrite FetchResourceAndReport_loop_waits. reflexivity.
  - intros k state response rest.
    rewrite FetchResourceAndReport_loop_waits. reflexivity.
  - intros k. rewrite <- (app_nil_r (repeat StillWaiting k)).
    rewrite FetchResourceAndReport_loop_waits. reflexivity.
  - induction polls as [|p polls IH].
    + left. exists 0%nat. reflexivity.
    + destruct p as [| | state response].
      * right. left. exists 0%nat, polls. reflexivity.
      * destruct IH as [(k & ->) | [(k & rest & ->) | (k & st & r & rest & ->)]].
        -- left. exists (S k). reflexivity.
        -- right. left. exists (S k), rest. reflexivity.
        -- right. right. exists (S k), st, r, rest. reflexivity.
      * right. right. exists 0%nat, state, response, polls. reflexivity.
  - intros state response o. apply report_shows_response.
Qed.

Section ExitStatus.
Variable ParseFromString : string -> Uri -> bool * Uri.
Variable GenerateString : Uri -> string.

Lemma ProcessCommandLineArguments_output argv environment :
  let r := ProcessCommandLineArguments ParseFromString argv environment in
  Forall (fun o => is_plain_output o = true) (snd r).
Proof.
  unfold ProcessCommandLineArguments.
  destruct (ProcessCommandLineArguments_loop (skipn 1 argv) "") as [u|];
    [| repeat constructor].
  destruct (string_empty u); [repeat constructor |].
  destruct (negb (fst (ParseFromString u (url environment))));
    repeat constructor.
Qed.

Lemma FetchResourceAndReport_output environment polls out :
  FetchResourceAndReport GenerateString environment polls = Some out ->
  Forall (fun o => is_plain_output o = true) out.
Proof.
  unfold FetchResourceAndReport. intros H.
  destruct (FetchResourceAndReport_loop polls) as [out3|] eqn:E;
    [| discriminate].
  inversion H; subst. repeat constructor.
  clear H. revert out3 E.
  induction polls as [|p polls IH]; simpl; intros out3 E; [discriminate |].
  destruct p; [inversion E; repeat constructor | eauto |].
  inversion E. apply report_plain.
Qed.

Lemma plain_output_filters out :
  Forall (fun o => is_plain_output o = true) out ->
  filter is_mobilize out = [] /\ filter is_demobilize out = []
  /\ ~ In PrintUsageInformation out.
Proof.
  intros H. induction H as [|o l Ho Hl IH]; simpl; [auto |].
  destruct IH as (I1 & I2 & I3).
  destruct o; simpl in *; try discriminate; repeat split; auto;
    intros [Hx | Hx]; try discriminate; contradiction.
Qed.

(** X16.  The exit status is decided by the command line alone: it is success
    exactly when the command line is accepted and the scheme of the URL is
    [http] or [https], however the fetch ended.  The usage text is printed
    exactly when the command line is turned down, so not for an
    unsupported scheme.  The client is demobilized as often as it was
    mobilized: once on success, never on failure. *)
Theorem main_exit_status (argv : list string) (polls : list Poll)
  (ok : bool) (environment : Environment) (out1 : list Output)
  (code : ExitCode) (out : list Output) :
  ProcessCommandLineArguments ParseFromString argv {| url := Uri_new |}
  = (ok, environment, out1) ->
  main ParseFromString GenerateString argv polls = Some (code, out) ->
  (code = EXIT_SUCCESS
   <-> ok = true
       /\ (uri_scheme (url environment) = "http"%string
           \/ uri_scheme (url environment) = "https"%string))
  /\ (In PrintUsageInformation out <-> ok = false)
  /\ length (filter is_mobilize out) = length (filter is_demobilize out)
  /\ length (filter is_mobilize out)
     = match code with EXIT_SUCCESS => 1%nat | EXIT_FAILURE => 0%nat end.
Proof.
  intros Hr H. unfold main in H.
  pose proof (ProcessCommandLineArguments_output argv {| url := Uri_new |}) as P.
  simpl in P. rewrite Hr in P, H. simpl in P.
  apply plain_output_filters in P. destruct P as (P1 & P2 & P3).
  destruct ok; simpl in H.
  - unfold StartClient, GetScheme in H.
    destruct (string_empty (uri_scheme (url environment))) eqn:E0;
      [| destruct (uri_scheme (url environment) =? "https")%string eqn:E1;
         [| destruct (uri_scheme (url environment) =? "http")%string eqn:E2]];
      simpl in H.
    + inversion H; subst. apply string_empty_true in E0.
      repeat (rewrite ?filter_app; simpl); rewrite ?P1, ?P2; simpl.
      repeat split; try discriminate; auto.
      * intros (_ & [Hx | Hx]); rewrite E0 in Hx; discriminate.
      * intros Hin. apply in_app_or in Hin. destruct Hin as [Hin | [Hin | []]];
          [contradiction | discriminate].
    + destruct (FetchResourceAndReport GenerateString environment polls)
        as [out3|] eqn:F; [| discriminate].
      inversion H; subst.
      apply FetchResourceAndReport_output, plain_output_filters in F.
      destruct F as (F1 & F2 & F3).
      apply String.eqb_eq in E1.
      repeat (rewrite ?filter_app; simpl); rewrite ?P1, ?P2, ?F1, ?F2; simpl.
      repeat split; auto; try discriminate.
      intros Hin. unfold StopClient in Hin.
      repeat (rewrite in_app_iff in Hin; simpl in Hin).
      intuition discriminate.
    + destruct (FetchResourceAndReport GenerateString environment polls)
        as [out3|] eqn:F; [| discriminate].
      inversion H; subst.
      apply FetchResourceAndReport_output, plain_output_filters in F.
      destruct F as (F1 & F2 & F3).
      apply String.eqb_eq in E2.
      repeat (rewrite ?filter_app; simpl); rewrite ?P1, ?P2, ?F1, ?F2; simpl.
      repeat split; auto; try discriminate.
      intros Hin. unfold StopClient in Hin.
      repeat (rewrite in_app_iff in Hin; simpl in Hin).
      intuition discriminate.
    + inversion H; subst.
      apply String.eqb_neq in E1, E2.
      repeat (rewrite ?filter_app; simpl); rewrite ?P1, ?P2; simpl.
      repeat split; try discriminate; auto.
      * intros (_ & [Hx | Hx]); contradiction.
      * intros Hin. apply in_app_or in Hin. destruct Hin as [Hin | [Hin | []]];
          [contradiction | discriminate].
  - inversion H; subst.
    repeat (rewrite ?filter_app; simpl); rewrite ?P1, ?P2; simpl.
    repeat split; try discriminate; auto.
    + intros (Hx & _). discriminate.
    + intros _. apply in_or_app. right. left. reflexivity.
Qed.

End ExitStatus.

(** ** The worker's wake cycle *)

Section WakeCycle.
Context {tls_h : LibTls}.

Lemma hooks_make_no_call hs s s' log :
  run_hooks hs s = Ok s' log ->
  filter is_tls_write log = [] /\ filter is_tls_read log = [].
Proof.
  intros H. apply run_hooks_actions in H.
  induction H as [|a l Ha Hl IH]; simpl; [auto |].
  destruct a; simpl in Ha; try contradiction; simpl; exact IH.
Qed.

Lemma Worker_notify_broken_no_call s u log :
  Worker_notify_broken s = Ok u log ->
  filter is_tls_write log = [] /\ filter is_tls_read log = [].
Proof.
  unfold Worker_notify_broken. intros H. outcome_inv; subst; simpl; auto.
Qed.

(** The write attempt calls [tls_write] at most once, first, and never
    [tls_read]. *)
Lemma Worker_write_calls call s s' log :
  Worker_write call s = Ok s' log ->
  filter is_tls_read log = [] /\ filter is_tls_write (tl log) = [].
Proof.
  unfold Worker_write, deref. intros H.
  outcome_inv; subst; simpl; auto;
    match goal with
    | Hh : run_hooks _ _ = Ok _ _ |- _ =>
        apply hooks_make_no_call in Hh; destruct Hh as [N1 N2]
    end;
    rewrite ?filter_app, ?N1, ?N2; simpl; auto.
Qed.

(** The read attempt calls [tls_read] at most once, first, and never
    [tls_write]. *)
Lemma Worker_read_calls call t s r log :
  Worker_read call t s = Ok r log ->
  filter is_tls_write log = [] /\ filter is_tls_read (tl log) = [].
Proof.
  unfold Worker_read, deref. intros H.
  destruct (negb (empty (receiveBufferSecure_ s)) || t);
    [| outcome_inv; subst; simpl; auto].
  apply bind_Ok in H. destruct H as (u & l1 & l2 & E1 & H & ->).
  apply emit_Ok in E1. subst l1.
  apply bind_Ok in H. destruct H as (s1 & l3 & l4 & E2 & H & ->).
  apply bind_Ok in H. destruct H as (s2 & l5 & l6 & E3 & H & ->).
  apply hooks_make_no_call in E2. destruct E2 as [N1 N2].
  apply engine_store_frame in E3. destruct E3 as [_ ->].
  cbv beta in H. simpl. rewrite !filter_app, N1, N2. simpl.
  outcome_inv; subst; simpl; auto.
  match goal with
  | Hn : Worker_notify_broken _ = Ok _ _ |- _ =>
      apply Worker_notify_broken_no_call in Hn; destruct Hn as [M1 M2]
  end.
  rewrite !filter_app, M1, M2. auto.
Qed.

(** A worker that starts, or leaves [wait], and is not told to stop makes
    one pass of the loop with the flag it carries. *)
Lemma Worker_pass wr rd s w :
  worker_ s = Some w ->
  pc w = Starting \/ (pc w = Waiting /\ wake_predicate s = true) ->
  step (EvWorker wr rd) s = Worker_loop wr rd (pass_tryRead w) s.
Proof.
  intros Hw Hp. simpl. unfold Worker, pass_tryRead. rewrite Hw.
  destruct Hp as [Hp | [Hp Hq]]; rewrite Hp; [| rewrite Hq]; reflexivity.
Qed.

(** C3.  In a wake cycle the worker first makes the write attempt on the
    object as it finds it, then the read attempt on what the write attempt
    left, and nothing else.  Unless [sendBuffer_] is non-empty and
    [canWrite_] and [open_] all hold on entry, the write attempt does
    nothing and the whole cycle never calls [tls_write].  Otherwise the
    cycle's first action is [tls_write] with the whole [sendBuffer_], and
    it is the only [tls_write] of the cycle; a would-block-on-read result
    clears [canWrite_] and keeps [sendBuffer_]; a result of [n] bytes
    removes exactly the first [n] bytes and keeps the rest in order; any
    other negative result breaks the raw connection, not cleanly, and
    keeps [sendBuffer_].  The read attempt that follows leaves
    [sendBuffer_] as the write attempt left it. *)
Theorem wake_cycle_write_attempt (wr rd : EngineCall)
  (s : TlsConnectionDecorator) (w : WorkerThread) (c : Connection) :
  worker_ s = Some w ->
  pc w = Starting \/ (pc w = Waiting /\ wake_predicate s = true) ->
  stopWorker_ s = false ->
  upperLayer_ s = Some c ->
  amount wr <= size (sendBuffer_ s) ->
  size (stored rd) <= DECRYPTED_BUFFER_SIZE ->
  exists s1 wlog s2 t' p rlog,
    Worker_write wr s = Ok s1 wlog
    /\ Worker_read rd (pass_tryRead w) s1 = Ok (s2, t', p) rlog
    /\ step (EvWorker wr rd) s
       = Ok (set_worker_ (Some {| pc := p; tryRead := t' |}) s2) (wlog ++ rlog)
    /\ filter is_tls_write rlog = []
    /\ sendBuffer_ s2 = sendBuffer_ s1
    /\ (sendBuffer_ s = [] \/ canWrite_ s = false \/ open_ s = false ->
        wlog = [] /\ s1 = s)
    /\ (sendBuffer_ s <> [] -> canWrite_ s = true -> open_ s = true ->
        exists rest,
          wlog = CallTlsWrite (sendBuffer_ s) (amount wr) :: rest
          /\ filter is_tls_write rest = []
          /\ (amount wr = TLS_WANT_POLLIN ->
                canWrite_ s1 = false /\ sendBuffer_ s1 = sendBuffer_ s)
          /\ (0 <= amount wr ->
                sendBuffer_ s1 = skipn (Z.to_nat (amount wr)) (sendBuffer_ s)
                /\ firstn (Z.to_nat (amount wr)) (sendBuffer_ s) ++ sendBuffer_ s1
                   = sendBuffer_ s)
          /\ (amount wr < 0 -> amount wr <> TLS_WANT_POLLIN ->
                In (UpperBreak c false) rest /\ sendBuffer_ s1 = sendBuffer_ s)).
Proof.
  intros Hw Hp Hs Hc Hle Hst.
  destruct (Worker_write_defined wr s c Hc Hle) as (s1 & wlog & E1).
  pose proof (Worker_write_frame _ _ _ _ E1) as (A1 & _).
  destruct (Worker_read_defined rd (pass_tryRead w) s1 c)
    as ([[s2 t'] p] & rlog & E2); [congruence | assumption |].
  exists s1, wlog, s2, t', p, rlog.
  split; [exact E1 |]. split; [exact E2 |].
  split.
  { rewrite (Worker_pass wr rd s w Hw Hp). unfold Worker_loop.
    rewrite Hs, E1. unfold bind at 1. rewrite E2. simpl.
    rewrite app_nil_r. reflexivity. }
  pose proof (Worker_read_calls _ _ _ _ _ E2) as (R1 & _).
  split; [exact R1 |].
  split.
  { pose proof (Worker_read_frame _ _ _ _ _ E2) as (_ & _ & _ & _ & _ & F6 & _).
    simpl in F6. rewrite (no_tls_write_nothing_taken _ R1) in F6. exact F6. }
  destruct (Worker_write_spec wr s c Hc) as [G1 G2].
  split.
  - intros Hg. rewrite (G1 Hg) in E1. inversion E1. auto.
  - intros Hne Hcw Ho.
    destruct (G2 Hne Hcw Ho Hle) as (s1' & rest & E1' & P1 & P2 & P3).
    rewrite E1' in E1. inversion E1; subst s1' wlog.
    exists rest. split; [reflexivity |].
    pose proof (Worker_write_calls _ _ _ _ E1') as (_ & W2). simpl in W2.
    auto.
Qed.

End WakeCycle.

Section WakeCycleRead.
Context {tls_h : LibTls}.

(** C6 (as amended).  In a wake cycle the read attempt comes after the
    write attempt and takes place exactly when [receiveBufferSecure_], as
    the write attempt left it, is non-empty or the keep-trying flag is set;
    the cycle then calls [tls_read] once, and otherwise not at all.  The
    flag is set when the thread makes its first pass and is otherwise what
    the last pass left: no call from another thread and no return from a
    delivery changes it.  A cycle without a read attempt leaves it off; a
    cycle with one leaves it off when [tls_read] returned 0 and on for
    every other result: more than 0 bytes, either would-block sentinel, or
    an error. *)
Theorem wake_cycle_read_attempt :
  (forall wr rd s w c,
      worker_ s = Some w ->
      pc w = Starting \/ (pc w = Waiting /\ wake_predicate s = true) ->
      stopWorker_ s = false ->
      upperLayer_ s = Some c ->
      amount wr <= size (sendBuffer_ s) ->
      size (stored rd) <= DECRYPTED_BUFFER_SIZE ->
      exists s1 wlog,
        Worker_write wr s = Ok s1 wlog
        /\ filter is_tls_read wlog = []
        /\ (receiveBufferSecure_ s1 = [] -> pass_tryRead w = false ->
            step (EvWorker wr rd) s
            = Ok (set_worker_ (Some {| pc := Waiting; tryRead := false |}) s1)
                 wlog)
        /\ (receiveBufferSecure_ s1 <> [] \/ pass_tryRead w = true ->
            exists s2 p rest,
              step (EvWorker wr rd) s
              = Ok (set_worker_
                      (Some {| pc := p; tryRead := negb (amount rd =? 0) |}) s2)
                   (wlog ++ CallTlsRead DECRYPTED_BUFFER_SIZE (amount rd) :: rest)
              /\ filter is_tls_read rest = []))
  /\ (forall w, pc w = Starting -> pass_tryRead w = true)
  /\ (forall w, pc w = Waiting -> pass_tryRead w = tryRead w)
  /\ (forall e s s' log,
         step e s = Ok s' log ->
         (forall wr rd, e <> EvWorker wr rd) ->
         option_map tryRead (worker_ s') = option_map tryRead (worker_ s)).
Proof.
  split; [| split; [| split]].
  - intros wr rd s w c Hw Hp Hs Hc Hle Hst.
    destruct (Worker_write_defined wr s c Hc Hle) as (s1 & wlog & E1).
    pose proof (Worker_write_frame _ _ _ _ E1) as (A1 & _).
    pose proof (Worker_write_calls _ _ _ _ E1) as (W1 & _).
    exists s1, wlog. split; [exact E1 |]. split; [exact W1 |].
    rewrite (Worker_pass wr rd s w Hw Hp). unfold Worker_loop. rewrite Hs, E1.
    destruct Worker_read_spec as (_ & R2 & R3).
    split.
    + intros Hr Ht. rewrite Ht. unfold bind at 1.
      rewrite (R2 rd s1 Hr). simpl. rewrite app_nil_r. reflexivity.
    + intros Hg.
      destruct (R3 rd (pass_tryRead w) s1 c) as (s2 & t' & p & rest & E2 & T0 & T1);
        [congruence | assumption | assumption |].
      pose proof (Worker_read_calls _ _ _ _ _ E2) as (_ & C2). simpl in C2.
      exists s2, p, rest. split; [| exact C2].
      unfold bind at 1. rewrite E2. simpl. rewrite app_nil_r.
      destruct (Z.eqb_spec (amount rd) 0) as [Ez | Ez]; simpl;
        [rewrite (T0 Ez) | rewrite (T1 Ez)]; reflexivity.
  - intros w Hp. unfold pass_tryRead. rewrite Hp. reflexivity.
  - intros w Hp. unfold pass_tryRead. rewrite Hp. reflexivity.
  - intros e s s' log H Hne. destruct e; simpl in H.
    + unfold SecureDataReceived in H. outcome_inv; subst. reflexivity.
    + unfold ConnectionBroken in H. outcome_inv; subst. reflexivity.
    + unfold SendData in H. outcome_inv; subst. reflexivity.
    + unfold Break, deref in H. outcome_inv; subst. reflexivity.
    + unfold SetDataReceivedDelegate in H. outcome_inv; subst. reflexivity.
    + unfold SetBrokenDelegate in H. outcome_inv; subst. reflexivity.
    + unfold destructor in H.
      destruct (joinable (worker_ s)); apply ret_Ok in H;
        destruct H as [<- _]; reflexivity.
    + exfalso. apply (Hne wr rd). reflexivity.
    + unfold Worker_delivered in H.
      destruct (worker_ s) as [w|]; [| discriminate].
      destruct (pc w); try discriminate.
      outcome_inv; subst. reflexivity.
Qed.

End WakeCycleRead.

(** ** The claims on concrete inputs, with the constants of libtls *)

#[local] Existing Instance libtls_header.

(** The object used in the runs below is the one [TlsDecorator::Connect]
    returns. *)
Lemma connected_example_is_connected :
  TlsDecorator_Connect (Some 0%nat) example_env "example.com" 443
    (Some (DataDelegate 7)) (Some (BrokenDelegateFn 9))
  = Ok (Some connected_example)
       [CallTlsConfigure {| verify_cert := false; verify_name := false;
                            protocols := 8 |};
        CallTlsConnectCbs "example.com"; StartWorker].
Proof. reflexivity. Qed.

(** C1, where the code departs from it: the broken delegate is not called
    exactly once per lifetime.  In the first lifetime the connection breaks
    while the worker is delivering the last chunk: the handler finds the
    buffer empty and calls the delegate, and the worker, back from the
    delivery, finds the buffer empty and the connection closed and calls it
    again.  In the second the last ciphertext is still buffered when the
    break arrives and the engine then reports the end of the stream: the
    branch for a read of 0 bytes makes no test, and the delegate is never
    called. *)
Theorem onBroken_not_exactly_once :
  (option_map lifetime_over (value_of (run break_during_delivery connected_example))
   = Some true
   /\ option_map broken_calls (log_of (run break_during_delivery connected_example))
      = Some 2%nat)
  /\ (option_map lifetime_over
        (value_of (run break_then_end_of_stream connected_example))
      = Some true
      /\ option_map broken_calls
           (log_of (run break_then_end_of_stream connected_example))
         = Some 0%nat).
Proof. repeat split; vm_compute; reflexivity. Qed.

Lemma onBroken_only_when_drained_witness :
  step EvConnectionBroken connected_example
  = Ok (set_open_ false connected_example) [CallBroken (BrokenDelegateFn 9) false]
  /\ In (CallBroken (BrokenDelegateFn 9) false)
        [CallBroken (BrokenDelegateFn 9) false]
  /\ receiveBufferSecure_ (set_open_ false connected_example) = []
  /\ open_ (set_open_ false connected_example) = false.
Proof.
  assert (Hs : step EvConnectionBroken connected_example
               = Ok (set_open_ false connected_example)
                    [CallBroken (BrokenDelegateFn 9) false]) by reflexivity.
  assert (Hi : In (CallBroken (BrokenDelegateFn 9) false)
                  [CallBroken (BrokenDelegateFn 9) false])
    by (left; reflexivity).
  destruct (onBroken_only_when_drained _ _ _ _ _ _ Hs Hi) as (A & B & _).
  repeat split; assumption.
Defined.

(** C4, as stated, fails for a request of zero bytes on an open connection
    with ciphertext buffered: the hook returns the would-block sentinel,
    not [min 0 buffered = 0]. *)
Lemma read_cb_zero_request :
  receiveBufferSecure_ one_byte_buffered <> []
  /\ read_cb one_byte_buffered 0 = Ok (one_byte_buffered, TLS_WANT_POLLIN) []
  /\ forall self' log,
       read_cb one_byte_buffered 0
       <> Ok (self', Z.min 0 (size (receiveBufferSecure_ one_byte_buffered))) log.
Proof.
  split; [discriminate |]. split; [vm_compute; reflexivity |].
  intros self' log H. vm_compute in H. discriminate H.
Qed.

Lemma read_cb_spec_witness :
  0 <= 1
  /\ read_cb one_byte_buffered 1
     = Ok (set_receiveBufferSecure_ [] (set_canWrite_ true one_byte_buffered), 1)
          [CopyToEngine [x2a]].
Proof.
  split; [lia |].
  destruct (read_cb_spec one_byte_buffered 1) as [H _]; [lia |].
  destruct H as [H _]; [discriminate | left; lia |].
  exact H.
Defined.

Lemma write_cb_spec_witness :
  upperLayer_ connected_example = Some (RawConnection 1)
  /\ open_ connected_example = true
  /\ write_cb connected_example [x16; x03]
     = Ok (connected_example, 2)
          [UpperSendData (RawConnection 1) [x16; x03]].
Proof.
  split; [reflexivity |]. split; [reflexivity |].
  destruct (write_cb_spec connected_example [x16; x03] (RawConnection 1))
    as [_ H]; [reflexivity |].
  apply H. reflexivity.
Defined.

Lemma set_delegates_are_noops_witness :
  run [EvSetBrokenDelegate None; EvSendData [x01]; EvSetDataReceivedDelegate None]
      connected_example
  = Ok (set_sendBuffer_ [x01] connected_example) []
  /\ dataReceivedDelegate_ (set_sendBuffer_ [x01] connected_example)
     = Some (DataDelegate 7)
  /\ brokenDelegate_ (set_sendBuffer_ [x01] connected_example)
     = Some (BrokenDelegateFn 9).
Proof.
  assert (Hr : run [EvSetBrokenDelegate None; EvSendData [x01];
                    EvSetDataReceivedDelegate None] connected_example
               = Ok (set_sendBuffer_ [x01] connected_example) [])
    by reflexivity.
  split; [exact Hr |].
  destruct set_delegates_are_noops as (_ & _ & H).
  exact (H _ _ _ _ Hr).
Defined.

Lemma buffers_are_fifo_witness :
  run interleaved_traffic waiting_idle
  = Ok (set_sendBuffer_ [x03; x04] waiting_idle)
       [CallTlsWrite [x01; x02; x03] 2;
        CopyToEngine [x2a]; CopyToEngine [x2b];
        UpperSendData (RawConnection 1) [xaa]]
  /\ [x01; x02] ++ [x03; x04]
     = [] ++ flat_map plaintext_submitted interleaved_traffic
  /\ [x2a; x2b] ++ []
     = [] ++ flat_map ciphertext_received interleaved_traffic.
Proof.
  assert (Hr : run interleaved_traffic waiting_idle
               = Ok (set_sendBuffer_ [x03; x04] waiting_idle)
                    [CallTlsWrite [x01; x02; x03] 2;
                     CopyToEngine [x2a]; CopyToEngine [x2b];
                     UpperSendData (RawConnection 1) [xaa]])
    by (vm_compute; reflexivity).
  split; [exact Hr |].
  destruct buffers_are_fifo as (_ & _ & H).
  exact (H _ _ _ _ Hr).
Defined.

Lemma Worker_write_spec_witness :
  upperLayer_ four_bytes_queued = Some (RawConnection 1)
  /\ exists s' rest,
      Worker_write (returns 3) four_bytes_queued
      = Ok s' (CallTlsWrite [x01; x02; x03; x04] 3 :: rest)
      /\ sendBuffer_ s' = [x04].
Proof.
  split; [reflexivity |].
  destruct (Worker_write_spec (returns 3) four_bytes_queued (RawConnection 1))
    as [_ H]; [reflexivity |].
  destruct H as (s' & rest & E & _ & H & _);
    [discriminate | reflexivity | reflexivity | vm_compute; discriminate |].
  exists s', rest. split; [exact E |].
  destruct H as [H _]; [simpl; lia |]. exact H.
Defined.


Lemma Worker_read_spec_witness :
  upperLayer_ one_byte_buffered = Some (RawConnection 1)
  /\ size (stored (returns 0)) <= DECRYPTED_BUFFER_SIZE
  /\ receiveBufferSecure_ one_byte_buffered <> []
  /\ exists s' p rest,
      Worker_read (returns 0) false one_byte_buffered
      = Ok (s', false, p) (CallTlsRead DECRYPTED_BUFFER_SIZE 0 :: rest).
Proof.
  split; [reflexivity |]. split; [vm_compute; discriminate |].
  split; [discriminate |].
  destruct Worker_read_spec as (_ & _ & H).
  destruct (H (returns 0) false one_byte_buffered (RawConnection 1))
    as (s' & t' & p & rest & E & H0 & _);
    [reflexivity | vm_compute; discriminate | left; discriminate |].
  rewrite (H0 eq_refl) in E.
  exists s', p, rest. exact E.
Defined.

Lemma Connect_disables_verification_witness :
  Connect example_env (Some (RawConnection 1)) (Some (DataDelegate 7))
    (Some (BrokenDelegateFn 9)) "example.com" TlsConnectionDecorator_new
  = Ok (connected_example, true)
       [CallTlsConfigure {| verify_cert := false; verify_name := false;
                            protocols := TLS_PROTOCOLS_DEFAULT |};
        CallTlsConnectCbs "example.com"; StartWorker]
  /\ exists cfg,
      tlsConfig_ connected_example = Some cfg
      /\ verify_cert cfg = false /\ verify_name cfg = false
      /\ protocols cfg = TLS_PROTOCOLS_DEFAULT.
Proof.
  assert (Hc : Connect example_env (Some (RawConnection 1)) (Some (DataDelegate 7))
                 (Some (BrokenDelegateFn 9)) "example.com" TlsConnectionDecorator_new
               = Ok (connected_example, true)
                    [CallTlsConfigure {| verify_cert := false; verify_name := false;
                                         protocols := TLS_PROTOCOLS_DEFAULT |};
                     CallTlsConnectCbs "example.com"; StartWorker])
    by reflexivity.
  split; [exact Hc |].
  destruct (Connect_disables_verification _ _ _ _ _ _ _ _ _ Hc) as [_ H].
  destruct (H eq_refl) as (cfg & _ & A & _ & B & C & D).
  exists cfg. repeat split; assumption.
Defined.

Lemma TlsDecorator_Connect_upper_failure_witness :
  upper_Connect_result upper_fails_env = None
  /\ tls_configure_result upper_fails_env = 0
  /\ tls_connect_cbs_result upper_fails_env = 0
  /\ exists s log,
      TlsDecorator_Connect (Some 0%nat) upper_fails_env "example.com" 443
        (Some (DataDelegate 7)) (Some (BrokenDelegateFn 9))
      = Ok (Some s) log
      /\ upperLayer_ s = None
      /\ In StartWorker log.
Proof.
  split; [reflexivity |]. split; [reflexivity |]. split; [reflexivity |].
  destruct (TlsDecorator_Connect_upper_failure upper_fails_env "example.com" 443
              (Some (DataDelegate 7)) (Some (BrokenDelegateFn 9)) 0%nat)
    as (s & cfg & E & U & _); try reflexivity.
  exists s. eexists. split; [exact E |]. split; [exact U |].
  right. right. left. reflexivity.
Defined.

(** ** The further properties on concrete inputs *)

Lemma run_actions_witness :
  run interleaved_traffic waiting_idle
  = Ok (set_sendBuffer_ [x03; x04] waiting_idle)
       [CallTlsWrite [x01; x02; x03] 2;
        CopyToEngine [x2a]; CopyToEngine [x2b];
        UpperSendData (RawConnection 1) [xaa]]
  /\ Forall (run_action_ok waiting_idle)
       [CallTlsWrite [x01; x02; x03] 2;
        CopyToEngine [x2a]; CopyToEngine [x2b];
        UpperSendData (RawConnection 1) [xaa]].
Proof.
  assert (Hr : run interleaved_traffic waiting_idle
               = Ok (set_sendBuffer_ [x03; x04] waiting_idle)
                    [CallTlsWrite [x01; x02; x03] 2;
                     CopyToEngine [x2a]; CopyToEngine [x2b];
                     UpperSendData (RawConnection 1) [xaa]])
    by (vm_compute; reflexivity).
  split; [exact Hr |].
  exact (run_actions _ _ _ _ Hr).
Defined.

Lemma nothing_sent_after_break_witness :
  open_ closed_with_plaintext = false
  /\ run [EvSendData [x02]; EvWorker (returns 1) (returns 0)] closed_with_plaintext
     = Ok (set_sendBuffer_ [x01; x02] closed_with_plaintext) []
  /\ sendBuffer_ (set_sendBuffer_ [x01; x02] closed_with_plaintext)
     = [x01] ++ [x02].
Proof.
  assert (Hr : run [EvSendData [x02]; EvWorker (returns 1) (returns 0)]
                 closed_with_plaintext
               = Ok (set_sendBuffer_ [x01; x02] closed_with_plaintext) [])
    by (vm_compute; reflexivity).
  split; [reflexivity |]. split; [exact Hr |].
  destruct (nothing_sent_after_break _ closed_with_plaintext _ _ eq_refl Hr) as (_ & _ & _ & H).
  exact H.
Defined.

Lemma writes_wait_for_read_hook_witness :
  canWrite_ write_blocked = false
  /\ run [EvSendData [x02]; EvBreak true] write_blocked
     = Ok (set_sendBuffer_ [x01; x02] write_blocked)
          [UpperBreak (RawConnection 1) false]
  /\ filter is_copy_to_engine [UpperBreak (RawConnection 1) false] = []
  /\ canWrite_ (set_sendBuffer_ [x01; x02] write_blocked) = false
  /\ exists r,
      read_cb (set_open_ false write_blocked) 5 = Ok r [CopyToEngine []]
      /\ snd r = 0
      /\ canWrite_ (fst r) = true.
Proof.
  assert (Hr : run [EvSendData [x02]; EvBreak true] write_blocked
               = Ok (set_sendBuffer_ [x01; x02] write_blocked)
                    [UpperBreak (RawConnection 1) false])
    by (vm_compute; reflexivity).
  destruct writes_wait_for_read_hook as (A & _ & C).
  split; [reflexivity |]. split; [exact Hr |]. split; [reflexivity |].
  split.
  - destruct (A _ write_blocked _ _ eq_refl Hr eq_refl) as (H & _). exact H.
  - apply C; [lia | reflexivity | left; reflexivity].
Defined.

Lemma hooks_forward_ciphertext_in_order_witness :
  upperLayer_ one_byte_buffered = Some (RawConnection 1)
  /\ run_hooks [WriteHook [x16]; ReadHook 5; WriteHook [x17]] one_byte_buffered
     = Ok connected_example
          [UpperSendData (RawConnection 1) [x16]; CopyToEngine [x2a];
           UpperSendData (RawConnection 1) [x17]]
  /\ filter is_upper_send
       [UpperSendData (RawConnection 1) [x16]; CopyToEngine [x2a];
        UpperSendData (RawConnection 1) [x17]]
     = [UpperSendData (RawConnection 1) [x16];
        UpperSendData (RawConnection 1) [x17]].
Proof.
  assert (Hr : run_hooks [WriteHook [x16]; ReadHook 5; WriteHook [x17]]
                 one_byte_buffered
               = Ok connected_example
                    [UpperSendData (RawConnection 1) [x16]; CopyToEngine [x2a];
                     UpperSendData (RawConnection 1) [x17]])
    by (vm_compute; reflexivity).
  split; [reflexivity |]. split; [exact Hr |].
  exact (hooks_forward_ciphertext_in_order _ one_byte_buffered _ _ _ eq_refl Hr).
Defined.

Lemma read_cb_returns_in_bounds_witness :
  0 <= 5
  /\ read_cb one_byte_buffered 5 = Ok (connected_example, 1) [CopyToEngine [x2a]]
  /\ 0 <= 1 <= 5.
Proof.
  assert (Hr : read_cb one_byte_buffered 5
               = Ok (connected_example, 1) [CopyToEngine [x2a]])
    by (vm_compute; reflexivity).
  split; [lia |]. split; [exact Hr |].
  destruct (read_cb_returns_in_bounds one_byte_buffered 5 _ _ ltac:(lia) Hr)
    as [(H & _) | (H & _)].
  - simpl in H. discriminate H.
  - exact H.
Defined.

Lemma delivered_plaintext_witness :
  exists s' hooklog,
    Worker_read two_bytes_decrypted false one_byte_buffered
    = Ok (s', true, Delivering)
         (CallTlsRead DECRYPTED_BUFFER_SIZE 2
            :: hooklog ++ [CallDataReceived (DataDelegate 7) [x68; x69]])
    /\ receiveBufferDecrypted_ s' = [x68; x69].
Proof.
  destruct (delivered_plaintext_is_what_engine_stored two_bytes_decrypted false
              one_byte_buffered (RawConnection 1) (DataDelegate 7))
    as (s' & hooklog & E & B & _);
    [reflexivity | reflexivity | left; discriminate | reflexivity
    | reflexivity | vm_compute; discriminate |].
  exists s', hooklog. split; [exact E | exact B].
Defined.

Lemma Connect_refused_once_connected_witness :
  Connect example_env (Some (RawConnection 1)) (Some (DataDelegate 7))
    (Some (BrokenDelegateFn 9)) "example.com" TlsConnectionDecorator_new
  = Ok (connected_example, true)
       [CallTlsConfigure {| verify_cert := false; verify_name := false;
                            protocols := 8 |};
        CallTlsConnectCbs "example.com"; StartWorker]
  /\ run [EvSendData [x01; x02; x03; x04]] connected_example
     = Ok four_bytes_queued []
  /\ Connect upper_fails_env None None None "other.example" four_bytes_queued
     = Ok (four_bytes_queued, false) [].
Proof.
  assert (Hc : Connect example_env (Some (RawConnection 1)) (Some (DataDelegate 7))
                 (Some (BrokenDelegateFn 9)) "example.com" TlsConnectionDecorator_new
               = Ok (connected_example, true)
                    [CallTlsConfigure {| verify_cert := false; verify_name := false;
                                         protocols := 8 |};
                     CallTlsConnectCbs "example.com"; StartWorker])
    by reflexivity.
  assert (Hr : run [EvSendData [x01; x02; x03; x04]] connected_example
               = Ok four_bytes_queued []) by reflexivity.
  split; [exact Hc |]. split; [exact Hr |].
  exact (Connect_refused_once_connected _ upper_fails_env _ None _ None _ None
           _ "other.example" _ _ _ _ _ _ Hc Hr).
Defined.


Lemma what_wakes_the_worker_witness :
  [x2a] <> []
  /\ wake_predicate waiting_idle = false
  /\ wake_predicate (set_receiveBufferSecure_ [x2a] waiting_idle) = true
  /\ wake_predicate (set_open_ false waiting_idle) = false.
Proof.
  assert (Hd : [x2a] <> []) by discriminate.
  destruct (what_wakes_the_worker waiting_idle [x2a] Hd) as (A & _ & C).
  split; [exact Hd |]. split; [reflexivity |]. split.
  - apply (A _ []). reflexivity.
  - rewrite (C (set_open_ false waiting_idle)
               [CallBroken (BrokenDelegateFn 9) false]); reflexivity.
Defined.

Lemma ProcessCommandLineArguments_rejects_witness :
  ProcessCommandLineArguments parse_as_https
    ["Rover"; "https://example.com"; ""]%string {| url := Uri_new |}
  = (false, {| url := Uri_new |},
     [Diagnostic "Rover" ERROR "multiple URLs given"]).
Proof.
  destruct (ProcessCommandLineArguments_rejects parse_as_https
              ["Rover"; "https://example.com"; ""]%string {| url := Uri_new |})
    as [_ H].
  apply H. exists [], "https://example.com"%string, [""%string].
  split; [reflexivity |]. split; discriminate.
Defined.

Lemma ProcessCommandLineArguments_default_port_witness :
  ProcessCommandLineArguments parse_as_https
    ["Rover"; ""; "https://example.com"]%string {| url := Uri_new |}
  = (true,
     {| url := {| uri_scheme := "https"; uri_port := Some 443;
                  uri_rest := "https://example.com" |} |}, [])
  /\ exists u parsed,
      parse_as_https u Uri_new = (true, parsed)
      /\ uri_port parsed = None
      /\ uri_scheme parsed = "https"%string.
Proof.
  assert (Hr : ProcessCommandLineArguments parse_as_https
                 ["Rover"; ""; "https://example.com"]%string {| url := Uri_new |}
               = (true,
                  {| url := {| uri_scheme := "https"; uri_port := Some 443;
                               uri_rest := "https://example.com" |} |}, []))
    by reflexivity.
  split; [exact Hr |].
  destruct (ProcessCommandLineArguments_default_port _ _ _ _ _ Hr)
    as (u & parsed & E & _ & S & _ & P).
  exists u, parsed. split; [exact E |].
  simpl in S, P. unfold parse_as_https in E. inversion E; subst parsed.
  simpl. auto.
Defined.

Lemma FetchResourceAndReport_loop_outcome_witness :
  FetchResourceAndReport_loop
    [StillWaiting; StillWaiting; SawShutDown; Finished Completed no_response]
  = Some [Diagnostic "Rover" WARNING "Fetch Canceled"]
  /\ FetchResourceAndReport_loop
       [StillWaiting; Finished TimedOut no_response; SawShutDown]
     = Some [Diagnostic "Rover" ERROR "timeout waiting for response"]
  /\ FetchResourceAndReport_loop [StillWaiting; StillWaiting; StillWaiting]
     = None.
Proof.
  destruct FetchResourceAndReport_loop_outcome as (A & B & C & _).
  split; [| split].
  - exact (A 2%nat [Finished Completed no_response]).
  - exact (B 1%nat TimedOut no_response [SawShutDown]).
  - exact (C 3%nat).
Defined.

Lemma main_exit_status_witness :
  main parse_as_https print_rest ["Rover"; "https://example.com"]%string
    [StillWaiting; Finished UnableToConnect no_response]
  = Some (EXIT_SUCCESS,
          [ClientMobilize TlsTransport;
           Diagnostic "Rover" (LevelNumber 3) "Web client up and running.";
           Diagnostic "Rover" (LevelNumber 1) "Fetching 'https://example.com'...";
           ClientRequest {| uri_scheme := "https"; uri_port := Some 443;
                            uri_rest := "https://example.com" |};
           Diagnostic "Rover" ERROR "unable to connect";
           Diagnostic "Rover" (LevelNumber 3) "Exiting...";
           ClientDemobilize])
  /\ (EXIT_SUCCESS = EXIT_SUCCESS <-> true = true /\
       ("https"%string = "http"%string \/ "https"%string = "https"%string)).
Proof.
  assert (Hm : main parse_as_https print_rest
                 ["Rover"; "https://example.com"]%string
                 [StillWaiting; Finished UnableToConnect no_response]
               = Some (EXIT_SUCCESS,
                       [ClientMobilize TlsTransport;
                        Diagnostic "Rover" (LevelNumber 3) "Web client up and running.";
                        Diagnostic "Rover" (LevelNumber 1)
                          "Fetching 'https://example.com'...";
                        ClientRequest {| uri_scheme := "https"; uri_port := Some 443;
                                         uri_rest := "https://example.com" |};
                        Diagnostic "Rover" ERROR "unable to connect";
                        Diagnostic "Rover" (LevelNumber 3) "Exiting...";
                        ClientDemobilize]))
    by reflexivity.
  assert (Hp : ProcessCommandLineArguments parse_as_https
                 ["Rover"; "https://example.com"]%string {| url := Uri_new |}
               = (true,
                  {| url := {| uri_scheme := "https"; uri_port := Some 443;
                               uri_rest := "https://example.com" |} |}, []))
    by reflexivity.
  split; [exact Hm |].
  destruct (main_exit_status parse_as_https print_rest _ _ _ _ _ _ _ Hp Hm)
    as (H & _).
  exact H.
Defined.

(** ** The wake cycle on concrete inputs *)

Lemma wake_cycle_write_attempt_witness :
  worker_ four_bytes_queued = Some {| pc := Starting; tryRead := false |}
  /\ stopWorker_ four_bytes_queued = false
  /\ upperLayer_ four_bytes_queued = Some (RawConnection 1)
  /\ amount (returns 3) <= size (sendBuffer_ four_bytes_queued)
  /\ size (stored (returns 0)) <= DECRYPTED_BUFFER_SIZE
  /\ exists s' rest,
      step (EvWorker (returns 3) (returns 0)) four_bytes_queued
      = Ok s' (CallTlsWrite [x01; x02; x03; x04] 3 :: rest)
      /\ filter is_tls_write rest = []
      /\ sendBuffer_ s' = [x04].
Proof.
  assert (H4 : amount (returns 3) <= size (sendBuffer_ four_bytes_queued))
    by (vm_compute; discriminate).
  assert (H5 : size (stored (returns 0)) <= DECRYPTED_BUFFER_SIZE)
    by (vm_compute; discriminate).
  split; [reflexivity |]. split; [reflexivity |]. split; [reflexivity |].
  split; [exact H4 |]. split; [exact H5 |].
  destruct (wake_cycle_write_attempt (returns 3) (returns 0) four_bytes_queued
              {| pc := Starting; tryRead := false |} (RawConnection 1)
              eq_refl (or_introl eq_refl) eq_refl eq_refl H4 H5)
    as (s1 & wlog & s2 & t' & p & rlog & _ & _ & E & R & S2 & _ & G).
  destruct G as (rest & -> & W & _ & (S1 & _) & _);
    [discriminate | reflexivity | reflexivity | simpl; lia |].
  exists (set_worker_ (Some {| pc := p; tryRead := t' |}) s2), (rest ++ rlog).
  split; [exact E |]. split.
  - rewrite filter_app, W, R. reflexivity.
  - simpl. rewrite S2. exact S1.
Defined.

(** C6, as stated, fails: a would-block result does set the keep-trying
    flag.  A worker waits with the flag off and one byte of ciphertext
    buffered.  In its next cycle the engine takes the byte and [tls_read]
    answers would-block: the flag is on afterwards.  So when plaintext is
    queued later and [tls_read] answers would-block again, that cycle too
    calls [tls_read], although nothing is buffered and no read has
    returned any bytes. *)
Lemma would_block_sets_tryRead_in_cycle :
  option_map tryRead (worker_ flag_off_with_ciphertext) = Some false
  /\ option_map (fun s' => option_map tryRead (worker_ s'))
       (value_of
          (step (EvWorker (returns 0)
                   {| hooks := [ReadHook 5]; amount := TLS_WANT_POLLIN;
                      stored := [] |})
             flag_off_with_ciphertext))
     = Some (Some true)
  /\ option_map (fun log => length (filter is_tls_read log))
       (log_of
          (run [EvWorker (returns 0)
                  {| hooks := [ReadHook 5]; amount := TLS_WANT_POLLIN;
                     stored := [] |};
                EvSendData [x01];
                EvWorker (returns 1) (returns TLS_WANT_POLLIN)]
             flag_off_with_ciphertext))
     = Some 2%nat.
Proof. repeat split; vm_compute; reflexivity. Qed.

Lemma wake_cycle_read_attempt_witness :
  worker_ connected_example = Some {| pc := Starting; tryRead := false |}
  /\ stopWorker_ connected_example = false
  /\ upperLayer_ connected_example = Some (RawConnection 1)
  /\ amount (returns 0) <= size (sendBuffer_ connected_example)
  /\ size (stored (returns 0)) <= DECRYPTED_BUFFER_SIZE
  /\ (exists s' log,
        step (EvWorker (returns 0) (returns 0)) connected_example = Ok s' log
        /\ option_map tryRead (worker_ s') = Some false
        /\ length (filter is_tls_read log) = 1%nat)
  /\ receiveBufferSecure_ flag_off_with_both = [x2a]
  /\ wake_predicate flag_off_with_both = true
  /\ (exists s' log,
        step (EvWorker write_that_reads (returns 0)) flag_off_with_both
        = Ok s' log
        /\ option_map tryRead (worker_ s') = Some false
        /\ filter is_tls_read log = []).
Proof.
  assert (H4 : amount (returns 0) <= size (sendBuffer_ connected_example))
    by (vm_compute; discriminate).
  assert (H5 : size (stored (returns 0)) <= DECRYPTED_BUFFER_SIZE)
    by (vm_compute; discriminate).
  assert (H6 : amount write_that_reads <= size (sendBuffer_ flag_off_with_both))
    by (vm_compute; discriminate).
  split; [reflexivity |]. split; [reflexivity |]. split; [reflexivity |].
  split; [exact H4 |]. split; [exact H5 |].
  destruct wake_cycle_read_attempt as (A & _).
  split; [| split; [reflexivity | split; [reflexivity |]]].
  - destruct (A (returns 0) (returns 0) connected_example
                {| pc := Starting; tryRead := false |} (RawConnection 1)
                eq_refl (or_introl eq_refl) eq_refl eq_refl H4 H5)
      as (s1 & wlog & _ & W & _ & G).
    destruct G as (s2 & p & rest & E & R); [right; reflexivity |].
    do 2 eexists. split; [exact E |]. split; [reflexivity |].
    rewrite filter_app, W. simpl. rewrite R. reflexivity.
  - destruct (A write_that_reads (returns 0) flag_off_with_both
                {| pc := Waiting; tryRead := false |} (RawConnection 1)
                eq_refl (or_intror (conj eq_refl eq_refl)) eq_refl eq_refl
                H6 H5)
      as (s1 & wlog & E1 & W & G & _).
    vm_compute in E1. inversion E1 as [[E2 E3]].
    do 2 eexists. split; [apply G; [rewrite <- E2 |]; reflexivity |].
    split; [reflexivity | exact W].
Defined.
